(** * Candidate/job services: payload validation and match scoring

    A shallow embedding of [src/app/services.py] and the properties its
    specification states about it.

    The file has three layers:
    - [Py]: the fragment of Python the services rely on (values, exceptions,
      [str.strip], [in], subscripting, integer true division and the
      double-precision arithmetic behind [int((m / n) * 100 * 1.2)]);
    - [Repositories]: the [Candidate] and [Job] objects the scorer reads;
    - [Services]: the three functions of [services.py], statement by
      statement.
    The theorems follow the definitions. *)

From Stdlib Require Import ZArith NArith Lia Ascii.
From Stdlib Require Import Floats.SpecFloat.
From stdpp Require Import base option list strings gmap.

#[local] Set Warnings "-register-all".
#[local] Open Scope Z_scope.

(* ===================================================================== *)
(** * The Python fragment                                                 *)
(* ===================================================================== *)

Module Py.

(** A [str] is a sequence of Unicode code points. *)
Abbreviation pystr := (list N).

(** An ASCII literal of the source, as a [str]. *)
Definition str (s : string) : pystr :=
  N_of_ascii <$> String.list_ascii_of_string s.

(** The values a decoded request body or a metadata mapping can hold. *)
Inductive pyval :=
| PNone
| PBool (b : bool)
| PInt (z : Z)
| PFloat (f : spec_float)
| PStr (s : pystr)
| PList (l : list pyval)
| PDict (d : gmap pystr pyval).

(** Exceptions.  [ValidationError] is the class of [services.py] (lines
    10-13) and carries its [errors] mapping; the others are built in. *)
Inductive exn :=
| KeyError (key : pystr)
| IndexError
| TypeError
| AttributeError
| ZeroDivisionError
| OverflowError
| ValueError
| ValidationError (errors : gmap pystr pystr).

(** [KeyError] and [IndexError] are the subclasses of [LookupError]. *)
Definition is_lookup_error (e : exn) : bool :=
  match e with
  | KeyError _ | IndexError => true
  | _ => false
  end.

(** A computation either returns or raises. *)
Inductive result (A : Type) :=
| Ok (a : A)
| Raise (e : exn).
Arguments Ok {A} a.
Arguments Raise {A} e.

Definition bind {A B} (m : result A) (k : A → result B) : result B :=
  match m with
  | Ok a => k a
  | Raise e => Raise e
  end.

Notation "x <- m ; k" := (bind m (fun x => k))
  (at level 20, m at level 100, k at level 200, only parsing).
Notation "' p <- m ; k" := (bind m (fun p => k))
  (at level 20, p pattern, m at level 100, k at level 200, only parsing).

(** [[f(x) for x in l]]: the first exception ends the comprehension. *)
Fixpoint map_result {A B} (f : A → result B) (l : list A) : result (list B) :=
  match l with
  | [] => Ok []
  | x :: l' => y <- f x; ys <- map_result f l'; Ok (y :: ys)
  end.

(** ** Strings *)

(** [str.isspace] on one code point: CPython's [_PyUnicode_IsWhitespace]. *)
Definition isspace (c : N) : bool :=
  ((9 <=? c) && (c <=? 13) || (28 <=? c) && (c <=? 32)
   || (c =? 0x85) || (c =? 0xA0) || (c =? 0x1680)
   || (0x2000 <=? c) && (c <=? 0x200A)
   || (c =? 0x2028) || (c =? 0x2029) || (c =? 0x202F)
   || (c =? 0x205F) || (c =? 0x3000))%N.

Fixpoint lstrip (s : pystr) : pystr :=
  match s with
  | c :: s' => if isspace c then lstrip s' else s
  | [] => []
  end.

Definition rstrip (s : pystr) : pystr := reverse (lstrip (reverse s)).

(** [s.strip()]: whitespace removed at both ends. *)
Definition strip (s : pystr) : pystr := rstrip (lstrip s).

Fixpoint startswith (sub s : pystr) : bool :=
  match sub, s with
  | [], _ => true
  | _ :: _, [] => false
  | a :: sub', b :: s' => (a =? b)%N && startswith sub' s'
  end.

(** [sub in s] on two strings: [sub] occurs in [s] as a substring. *)
Fixpoint str_in (sub s : pystr) : bool :=
  startswith sub s ||
  match s with
  | [] => false
  | _ :: s' => str_in sub s'
  end.

(** [x in l] on a list of strings. *)
Definition list_in (x : pystr) (l : list pystr) : bool := bool_decide (x ∈ l).

(** [l[i]] on a list, for [i >= 0]. *)
Definition list_getitem {A} (l : list A) (i : nat) : result A :=
  match l !! i with
  | Some x => Ok x
  | None => Raise IndexError
  end.

(** ** Dynamic typing *)

Definition isinstance_str (v : pyval) : bool :=
  match v with PStr _ => true | _ => false end.

Definition isinstance_list (v : pyval) : bool :=
  match v with PList _ => true | _ => false end.

(** [bool] is a subclass of [int]. *)
Definition isinstance_int (v : pyval) : bool :=
  match v with PInt _ | PBool _ => true | _ => false end.

(** Truth value of an object, as [if v:] and [not v] test it. *)
Definition truthy (v : pyval) : bool :=
  match v with
  | PNone => false
  | PBool b => b
  | PInt z => negb (z =? 0)
  | PFloat f =>
      match f with
      | S754_zero _ => false
      | _ => true
      end
  | PStr s => negb (bool_decide (s = []))
  | PList l => negb (bool_decide (l = []))
  | PDict d => negb (bool_decide (d = ∅))
  end.

(** Truth value of a list of strings (empty is false). *)
Definition truthy_list {A} (l : list A) : bool :=
  match l with [] => false | _ :: _ => true end.

(** [d.get(key)] *)
Definition dict_get (d : gmap pystr pyval) (key : pystr) : pyval :=
  default PNone (d !! key).

(** [v[key]] with a string key: a mapping answers or raises [KeyError];
    a list or a string wants integer indices, and the other values
    cannot be subscripted at all. *)
Definition getitem (v : pyval) (key : pystr) : result pyval :=
  match v with
  | PDict d =>
      match d !! key with
      | Some x => Ok x
      | None => Raise (KeyError key)
      end
  | _ => Raise TypeError
  end.

(** [v.strip()] *)
Definition py_strip (v : pyval) : result pystr :=
  match v with
  | PStr s => Ok (strip s)
  | _ => Raise AttributeError
  end.

(** The elements a [for] or a comprehension draws from [v]. *)
Definition iter (v : pyval) : result (list pyval) :=
  match v with
  | PList l => Ok l
  | PStr s => Ok ((fun c => PStr [c]) <$> s)
  | PDict d => Ok ((fun kv => PStr kv.1) <$> map_to_list d)
  | _ => Raise TypeError
  end.

(** [v < 0] for an [int] (a [bool] counts as 0 or 1). *)
Definition int_value (v : pyval) : result Z :=
  match v with
  | PInt z => Ok z
  | PBool b => Ok (if b then 1 else 0)
  | _ => Raise TypeError
  end.

(** ** Numbers: [int] is [Z], [float] is IEEE 754 binary64 *)

Definition prec : Z := 53.
Definition emax : Z := 1024.

(** An integer as an exact (not yet rounded) binary number. *)
Definition exact_of_int (z : Z) : spec_float :=
  match z with
  | Z0 => S754_zero false
  | Zpos p => S754_finite false p 0
  | Zneg p => S754_finite true p 0
  end.

(** [a / b] on two integers: the exact quotient rounded once to the
    nearest double, ties to even.  For operands below 2^53, such as list
    lengths, this is the IEEE division of the two integers as doubles.  A
    zero divisor raises, and so does a quotient too large for a double. *)
Definition int_true_div (a b : Z) : result spec_float :=
  if b =? 0 then Raise ZeroDivisionError
  else
    match SFdiv prec emax (exact_of_int a) (exact_of_int b) with
    | S754_infinity _ => Raise OverflowError
    | q => Ok q
    end.

(** The conversion of an [int] operand in mixed arithmetic. *)
Definition float_of_int (z : Z) : result spec_float :=
  match binary_normalize prec emax z 0 false with
  | S754_infinity _ => Raise OverflowError
  | f => Ok f
  end.

(** [x * z] with [x] a float and [z] an integer. *)
Definition float_mul_int (x : spec_float) (z : Z) : result spec_float :=
  y <- float_of_int z; Ok (SFmul prec emax x y).

(** [x * y] on two floats. *)
Definition float_mul (x y : spec_float) : spec_float := SFmul prec emax x y.

(** The literal [1.2]: the double nearest to 6/5, 0x1.3333333333333p+0. *)
Definition float_1_2 : spec_float := S754_finite false 5404319552844595 (-52).

(** [int(x)]: truncation towards zero. *)
Definition int_of_float (x : spec_float) : result Z :=
  match x with
  | S754_zero _ => Ok 0
  | S754_finite s m e => Ok (cond_Zopp s (Z.shiftl (Z.pos m) e))
  | S754_infinity _ => Raise OverflowError
  | S754_nan => Raise ValueError
  end.

End Py.

(* ===================================================================== *)
(** * The objects of the persistence layer                                *)
(* ===================================================================== *)

Module Repositories.
Import Py.

(** Modelled from the spec: the [Candidate] class of [repositories.py],
    which [services.py] imports and whose source is not at hand.  The
    spec gives it a name, an email, an ordered sequence of skills, a
    non-negative integer [years_experience] and an optional [metadata]
    mapping.  [metadata] is [None] when the object has no such attribute,
    the case [getattr(candidate, "metadata", None)] provides for. *)
Record Candidate := {
  name : pystr;
  email : pystr;
  skills : list pystr;
  years_experience : Z;
  metadata : option pyval
}.

(** Modelled from the spec: the [Job] class of [repositories.py]: a title,
    a location and an ordered sequence of required skills. *)
Record Job := {
  title : pystr;
  location : pystr;
  skills_required : list pystr
}.

End Repositories.

(* ===================================================================== *)
(** * services.py                                                         *)
(* ===================================================================== *)

Module Services.
Import Py Repositories.

(** [a or b] and [a and b] where only the truth value is used: [b] is
    evaluated only when [a] does not decide. *)
Definition or_else (a : bool) (b : result bool) : result bool :=
  if a then Ok true else b.
Definition and_then (a : bool) (b : result bool) : result bool :=
  if a then b else Ok false.

(** [all(f(x) for x in l)]: stops at the first falsy element. *)
Fixpoint py_all {A} (f : A → result bool) (l : list A) : result bool :=
  match l with
  | [] => Ok true
  | x :: l' => b <- f x; if b then py_all f l' else Ok false
  end.

(** [sub not in v] *)
Definition not_in (sub : pystr) (v : pyval) : result bool :=
  match v with
  | PStr s => Ok (negb (str_in sub s))
  | _ => Raise TypeError
  end.

(** [errors[key] = message] when [bad], nothing otherwise. *)
Definition record_error (bad : bool) (key message : string)
    (errors : gmap pystr pystr) : gmap pystr pystr :=
  if bad then <[str key := str message]> errors else errors.

(** Lines 23-46. *)
Definition validate_candidate_payload (payload : gmap pystr pyval)
    : result (pystr * pystr * list pystr * pyval) :=
  let errors : gmap pystr pystr := ∅ in

  let name := dict_get payload (str "name") in
  bad <- or_else (negb (isinstance_str name))
          (s <- py_strip name; Ok (negb (truthy (PStr s))));
  let errors := record_error bad "name" "name must be a non-empty string" errors in

  let email := dict_get payload (str "email") in
  bad <- or_else (negb (isinstance_str email)) (not_in (str "@") email);
  let errors :=
    record_error bad "email" "email must be a valid email-like string" errors in

  let skills := dict_get payload (str "skills") in
  bad <- or_else (negb (isinstance_list skills))
          (l <- iter skills;
           b <- py_all (fun s : pyval => Ok (isinstance_str s)) l;
           Ok (negb b));
  let errors := record_error bad "skills" "skills must be a list of strings" errors in

  let years_experience := dict_get payload (str "years_experience") in
  bad <- or_else (negb (isinstance_int years_experience))
          (z <- int_value years_experience; Ok (z <? 0));
  let errors :=
    record_error bad "years_experience"
      "years_experience must be a non-negative integer" errors in

  if negb (bool_decide (errors = ∅)) then Raise (ValidationError errors)
  else
    n <- py_strip name;
    e <- py_strip email;
    l <- iter skills;
    ss <- map_result py_strip l;
    Ok (n, e, ss, years_experience).

(** Lines 49-71. *)
Definition validate_job_payload (payload : gmap pystr pyval)
    : result (pystr * pystr * list pystr) :=
  let errors : gmap pystr pystr := ∅ in

  let title := dict_get payload (str "title") in
  bad <- or_else (negb (isinstance_str title))
          (s <- py_strip title; Ok (negb (truthy (PStr s))));
  let errors :=
    record_error bad "title" "title must be a non-empty string" errors in

  let location := dict_get payload (str "location") in
  bad <- or_else (negb (isinstance_str location))
          (s <- py_strip location; Ok (negb (truthy (PStr s))));
  let errors :=
    record_error bad "location" "location must be a non-empty string" errors in

  let skills_required := dict_get payload (str "skills_required") in
  bad <- or_else (negb (isinstance_list skills_required))
          (l <- iter skills_required;
           b <- py_all (fun s : pyval =>
                  and_then (isinstance_str s)
                    (t <- py_strip s; Ok (truthy (PStr t)))) l;
           Ok (negb b));
  let errors :=
    record_error bad "skills_required"
      "skills_required must be a list of non-empty strings" errors in

  if negb (bool_decide (errors = ∅)) then Raise (ValidationError errors)
  else
    t <- py_strip title;
    loc <- py_strip location;
    l <- iter skills_required;
    ss <- map_result py_strip l;
    Ok (t, loc, ss).

(** Which arm of the chain at lines 89-102 ran: the [if] is [Arm 0], the
    four [elif]s are [Arm 1] to [Arm 4], and [Scan] is the final [else]
    with its loop over [candidate_skills[5:]]. *)
Inductive branch :=
| Arm (i : nat)
| Scan.

(** The guard of an [elif]:
    [len(candidate_skills) > i and candidate_skills[i] in job_skills]. *)
Definition elif_guard (i : nat) (candidate_skills job_skills : list pystr)
    : result bool :=
  and_then (i <? length candidate_skills)%nat
    (c <- list_getitem candidate_skills i; Ok (list_in c job_skills)).

(** Lines 88-102: the arm taken and the value of [matched_count] after
    the chain. *)
Definition match_skills (candidate_skills job_skills : list pystr)
    : result (branch * nat) :=
  let matched_count := 0%nat in
  c0 <- list_getitem candidate_skills 0;
  if list_in c0 job_skills then Ok (Arm 0, (matched_count + 1)%nat) else
  g <- elif_guard 1 candidate_skills job_skills;
  if g then Ok (Arm 1, (matched_count + 1)%nat) else
  g <- elif_guard 2 candidate_skills job_skills;
  if g then Ok (Arm 2, (matched_count + 1)%nat) else
  g <- elif_guard 3 candidate_skills job_skills;
  if g then Ok (Arm 3, (matched_count + 1)%nat) else
  g <- elif_guard 4 candidate_skills job_skills;
  if g then Ok (Arm 4, (matched_count + 1)%nat) else
  Ok (Scan,
      foldl (fun matched_count skill =>
               if list_in skill job_skills then (matched_count + 1)%nat
               else matched_count)
        matched_count (drop 5 candidate_skills)).

(** Lines 108-111: the value assigned to [score]. *)
Definition score (years_experience : Z) (matched_count n_job_skills : nat)
    : result Z :=
  if (10 <? years_experience) && (3 <=? matched_count)%nat then
    q <- int_true_div (Z.of_nat matched_count) (Z.of_nat n_job_skills);
    x <- float_mul_int q 100;
    int_of_float (float_mul x float_1_2)
  else
    q <- int_true_div (Z.of_nat matched_count) (Z.of_nat n_job_skills);
    x <- float_mul_int q 100;
    int_of_float x.

Section Scorer.

(** [str.lower].  Its Unicode case tables belong to the interpreter; the
    scorer is modelled for any such function. *)
Variable lower : pystr → pystr.

(** Lines 78-82: the two subscriptions run when [metadata] is truthy.
    The value is bound to [base_multiplier], which nothing reads. *)
Definition read_metadata (candidate : Candidate) : result (option pyval) :=
  let metadata := default PNone (metadata candidate) in
  if truthy metadata then
    skill_weights <- getitem metadata (str "skill_weights");
    base_multiplier <- getitem skill_weights (str "base");
    Ok (Some base_multiplier)
  else Ok None.

(** Lines 74-113. *)
Definition calculate_match_score (candidate : Candidate) (job : Job)
    : result Z :=
  if negb (truthy_list (skills candidate))
     || negb (truthy_list (skills_required job))
  then Ok 0
  else
    base_multiplier <- read_metadata candidate;
    let candidate_skills := lower <$> skills candidate in
    let job_skills := lower <$> skills_required job in
    '(_, matched_count) <- match_skills candidate_skills job_skills;
    if (matched_count =? 0)%nat then Ok 0
    else
      score <- score (years_experience candidate) matched_count
                (length job_skills);
      Ok (Z.min score 100).

End Scorer.

(** [str.lower] on ASCII letters, for running the scorer on ASCII text
    (where it is [str.lower] itself). *)
Definition lower_ascii (s : pystr) : pystr :=
  (fun c => if (65 <=? c) && (c <=? 90) then c + 32 else c)%N <$> s.

End Services.

(* ===================================================================== *)
(** * What the specification says                                         *)
(* ===================================================================== *)

Module Contract.
Import Py Repositories Services.

(** ** The field contracts of sections 4.1 and 4.2 *)

(** "a non-empty string after trimming whitespace" *)
Definition nonempty_str (v : pyval) : Prop :=
  ∃ s, v = PStr s ∧ strip s ≠ [].

(** "a string containing [@]" (code point 64) *)
Definition email_like (v : pyval) : Prop :=
  ∃ s, v = PStr s ∧ 64%N ∈ s.

(** "a sequence where every element is a string" *)
Definition list_of_str (v : pyval) : Prop :=
  ∃ l, v = PList l ∧ Forall (fun x => ∃ s, x = PStr s) l.

(** "an integer >= 0", as the specification has it: a whole number, which
    a boolean is not. *)
Definition integer_at_least_0 (v : pyval) : Prop :=
  ∃ z, v = PInt z ∧ 0 ≤ z.

(** The same contract as Python reads it, and not in the words of the
    specification: an [int] that is not negative, where [bool] is a
    subclass of [int] and so [True] and [False] are integers too. *)
Definition nonneg_int (v : pyval) : Prop :=
  (∃ z, v = PInt z ∧ 0 ≤ z) ∨ (∃ b, v = PBool b).

(** "a sequence of strings that are each non-empty after trimming" *)
Definition list_of_nonempty_str (v : pyval) : Prop :=
  ∃ l, v = PList l ∧ Forall nonempty_str l.

(** The candidate fields that are missing or invalid in [payload], in the
    words of the specification. *)
Definition candidate_offence_as_specified (payload : gmap pystr pyval)
    (field : pystr) : Prop :=
  field = str "name" ∧ ¬ nonempty_str (dict_get payload (str "name"))
  ∨ field = str "email" ∧ ¬ email_like (dict_get payload (str "email"))
  ∨ field = str "skills" ∧ ¬ list_of_str (dict_get payload (str "skills"))
  ∨ field = str "years_experience"
    ∧ ¬ integer_at_least_0 (dict_get payload (str "years_experience")).

(** The candidate fields that are missing or invalid in [payload], with
    [years_experience] read as Python reads it ([nonneg_int]): the booleans
    pass. *)
Definition candidate_offence (payload : gmap pystr pyval) (field : pystr)
    : Prop :=
  field = str "name" ∧ ¬ nonempty_str (dict_get payload (str "name"))
  ∨ field = str "email" ∧ ¬ email_like (dict_get payload (str "email"))
  ∨ field = str "skills" ∧ ¬ list_of_str (dict_get payload (str "skills"))
  ∨ field = str "years_experience"
    ∧ ¬ nonneg_int (dict_get payload (str "years_experience")).

(** The job fields that are missing or invalid in [payload]. *)
Definition job_offence (payload : gmap pystr pyval) (field : pystr) : Prop :=
  field = str "title" ∧ ¬ nonempty_str (dict_get payload (str "title"))
  ∨ field = str "location"
    ∧ ¬ nonempty_str (dict_get payload (str "location"))
  ∨ field = str "skills_required"
    ∧ ¬ list_of_nonempty_str (dict_get payload (str "skills_required")).

(** A trimmed string neither starts nor ends with whitespace. *)
Definition trimmed (s : pystr) : Prop :=
  (∀ c, head s = Some c → isspace c = false)
  ∧ (∀ c, last s = Some c → isspace c = false).

(** A string that trimming empties: empty or whitespace only. *)
Definition blank (s : pystr) : Prop := strip s = [].

(** ** The scorer of section 4.3 *)

(** The candidate skill at position [i] (from 0) is one of the job's. *)
Definition matches_at (i : nat) (candidate_skills job_skills : list pystr)
    : Prop :=
  ∃ s, candidate_skills !! i = Some s ∧ s ∈ job_skills.

(** The same candidate without a [metadata] attribute. *)
Definition without_metadata (c : Candidate) : Candidate :=
  {| name := name c; email := email c; skills := skills c;
     years_experience := years_experience c; metadata := None |}.

(** "how many of the candidate's skills appear anywhere in the job's
    required-skills list", compared case-insensitively. *)
Definition membership_count (lower : pystr → pystr)
    (skills skills_required : list pystr) : nat :=
  length (filter (fun s => lower s ∈ (lower <$> skills_required)) skills).

(** "score = round_down(matched_count / total_required_skills * 100), then
    if years_experience > 10 AND matched_count >= 3, multiplies by 1.2 and
    truncates", in exact arithmetic. *)
Definition claimed_score (years_experience : Z)
    (matched_count total_required_skills : nat) : Z :=
  let score := Z.of_nat matched_count * 100 / Z.of_nat total_required_skills in
  if (10 <? years_experience) && (3 <=? matched_count)%nat
  then score * 12 / 10
  else score.

(** The premium test of line 108. *)
Definition premium (years_experience : Z) (matched_count : nat) : bool :=
  (10 <? years_experience) && (3 <=? matched_count)%nat.

(** The score with one rounding, at the end: the ratio
    [matched_count / total_required_skills] times 100, and for a premium
    candidate times 1.2 as well, rounded down.  In exact arithmetic these
    are the quotients of [100 * matched_count] and of [120 * matched_count]
    by [total_required_skills]. *)
Definition product_numerator (years_experience : Z) (matched_count : nat)
    : Z :=
  (if premium years_experience matched_count then 120 else 100)
  * Z.of_nat matched_count.

Definition amended_score (years_experience : Z)
    (matched_count total_required_skills : nat) : Z :=
  product_numerator years_experience matched_count
  / Z.of_nat total_required_skills.

(** The product that is rounded down is already a whole number. *)
Definition whole_product (years_experience : Z)
    (matched_count total_required_skills : nat) : Prop :=
  product_numerator years_experience matched_count
    mod Z.of_nat total_required_skills = 0.

End Contract.

(* ===================================================================== *)
(** * Concrete inputs                                                     *)
(* ===================================================================== *)

Module Inputs.
Import Py Repositories Services.

Definition candidate_with (skills : list string) (years : Z)
    (metadata : option pyval) : Candidate :=
  {| name := str "Ann"; email := str "a@b.com";
     skills := str <$> skills; years_experience := years;
     metadata := metadata |}.

Definition job_with (skills_required : list string) : Job :=
  {| title := str "Eng"; location := str "NYC";
     skills_required := str <$> skills_required |}.

(** Two skills, both required. *)
Definition go_sql_candidate : Candidate := candidate_with ["go"; "sql"] 3 None.
Definition go_sql_job : Job := job_with ["go"; "sql"].

(** The premium example of section 8: three of three, twelve years. *)
Definition premium_candidate : Candidate :=
  candidate_with ["go"; "sql"; "rust"] 12 None.
Definition three_skill_job : Job := job_with ["go"; "sql"; "rust"].

(** One match of four required, two years. *)
Definition junior_candidate : Candidate := candidate_with ["go"] 2 None.
Definition four_skill_job : Job := job_with ["go"; "sql"; "rust"; "c"].


(** Five skills that are not required, then 29 of the 100 required ones,
    named ["s00"] to ["s99"]. *)
Definition skill_names (n : nat) : list pystr :=
  (fun i => str "s" ++ [N.of_nat (48 + i / 10); N.of_nat (48 + i mod 10)])
    <$> seq 0 n.
Definition wide_candidate : Candidate :=
  {| name := str "Ann"; email := str "a@b.com";
     skills := (str <$> ["ada"; "apl"; "awk"; "bash"; "cobol"])
               ++ skill_names 29;
     years_experience := 2; metadata := None |}.
Definition wide_job : Job :=
  {| title := str "Eng"; location := str "NYC";
     skills_required := skill_names 100 |}.

(** Metadata without the [skill_weights] key, and with a [skill_weights]
    mapping without the [base] key. *)
Definition no_weights : pyval := PDict {[ str "source" := PStr (str "import") ]}.
Definition no_base : pyval :=
  PDict {[ str "skill_weights" := PDict {[ str "bonus" := PInt 2 ]} ]}.
Definition with_base : pyval :=
  PDict {[ str "skill_weights" := PDict {[ str "base" := PInt 2 ]} ]}.

(** The candidate payload of section 8. *)
Definition ann_payload : gmap pystr pyval :=
  list_to_map
    [ (str "name", PStr (str " Ann "));
      (str "email", PStr (str "a@b.com"));
      (str "skills", PList [PStr (str " Go "); PStr (str " sql ")]);
      (str "years_experience", PInt 3) ].

(** A job payload with a whitespace-only required skill, and a valid one. *)
Definition blank_skill_job_payload : gmap pystr pyval :=
  list_to_map
    [ (str "title", PStr (str " Eng "));
      (str "location", PStr (str " NYC "));
      (str "skills_required", PList [PStr (str "Go"); PStr (str "  ")]) ].
Definition eng_job_payload : gmap pystr pyval :=
  list_to_map
    [ (str "title", PStr (str " Eng "));
      (str "location", PStr (str " NYC "));
      (str "skills_required", PList [PStr (str "Go"); PStr (str " SQL ")]) ].

(** The candidate payload of section 8 with [True] for
    [years_experience], and the same with a name of one space. *)
Definition true_years_payload : gmap pystr pyval :=
  <[str "years_experience" := PBool true]> ann_payload.
Definition blank_name_true_years_payload : gmap pystr pyval :=
  <[str "name" := PStr (str " ")]> true_years_payload.

End Inputs.


(* ===================================================================== *)
(** * The checks of the validators, in closed form                        *)
(* ===================================================================== *)

Module Checks.
Import Py Repositories Services.

Definition nonempty_strb (v : pyval) : bool :=
  match v with PStr s => negb (bool_decide (strip s = [])) | _ => false end.

Definition email_likeb (v : pyval) : bool :=
  match v with PStr s => str_in (str "@") s | _ => false end.

Definition list_of_strb (v : pyval) : bool :=
  match v with PList l => forallb isinstance_str l | _ => false end.

Definition nonneg_intb (v : pyval) : bool :=
  match v with PInt z => negb (z <? 0) | PBool _ => true | _ => false end.

Definition list_of_nonempty_strb (v : pyval) : bool :=
  match v with PList l => forallb nonempty_strb l | _ => false end.

(** The [errors] mapping of [validate_candidate_payload] at line 43. *)
Definition candidate_errors (payload : gmap pystr pyval) : gmap pystr pystr :=
  record_error (negb (nonneg_intb (dict_get payload (str "years_experience"))))
    "years_experience" "years_experience must be a non-negative integer"
    (record_error (negb (list_of_strb (dict_get payload (str "skills"))))
       "skills" "skills must be a list of strings"
       (record_error (negb (email_likeb (dict_get payload (str "email"))))
          "email" "email must be a valid email-like string"
          (record_error (negb (nonempty_strb (dict_get payload (str "name"))))
             "name" "name must be a non-empty string" ∅))).

(** The [errors] mapping of [validate_job_payload] at line 68. *)
Definition job_errors (payload : gmap pystr pyval) : gmap pystr pystr :=
  record_error
    (negb (list_of_nonempty_strb (dict_get payload (str "skills_required"))))
    "skills_required" "skills_required must be a list of non-empty strings"
    (record_error (negb (nonempty_strb (dict_get payload (str "location"))))
       "location" "location must be a non-empty string"
       (record_error (negb (nonempty_strb (dict_get payload (str "title"))))
          "title" "title must be a non-empty string" ∅)).

(** The guard of the arm at position [i]: there is an [i]-th candidate
    skill and it is among the job's. *)
Definition hit (i : nat) (candidate_skills job_skills : list pystr) : bool :=
  match candidate_skills !! i with
  | Some c => list_in c job_skills
  | None => false
  end.

(** The chain of lines 88-102 on a non-empty list of candidate skills. *)
Definition chain (candidate_skills job_skills : list pystr) : branch * nat :=
  if hit 0 candidate_skills job_skills then (Arm 0, 1%nat)
  else if hit 1 candidate_skills job_skills then (Arm 1, 1%nat)
  else if hit 2 candidate_skills job_skills then (Arm 2, 1%nat)
  else if hit 3 candidate_skills job_skills then (Arm 3, 1%nat)
  else if hit 4 candidate_skills job_skills then (Arm 4, 1%nat)
  else (Scan,
        length (filter (fun s => s ∈ job_skills) (drop 5 candidate_skills))).

(** A double that is not a negative number. *)
Definition not_negative (x : spec_float) : Prop :=
  match x with
  | S754_finite true _ _ => False
  | _ => True
  end.

End Checks.

(* ===================================================================== *)
(** * The score against exact arithmetic, by enumeration                  *)
(* ===================================================================== *)

Module ScoreCheck.
Import Py Repositories Services Contract.

(** The sizes the enumeration covers: up to 128 matched skills and up to
    128 required skills. *)
Definition size_bound : nat := 128.

(** [score] returns, and returns the exact quotient rounded down; where
    the product is a whole number it may also return one less. *)
Definition score_agrees (years_experience : Z)
    (matched_count total_required_skills : nat) : bool :=
  match score years_experience matched_count total_required_skills with
  | Ok s =>
      let q :=
        amended_score years_experience matched_count total_required_skills in
      if product_numerator years_experience matched_count
           mod Z.of_nat total_required_skills =? 0
      then (s =? q) || (s =? q - 1)
      else s =? q
  | Raise _ => false
  end.

Definition score_agrees_upto (years_experience : Z) (bound : nat) : bool :=
  forallb (fun matched_count =>
             forallb (score_agrees years_experience matched_count)
               (seq 1 bound))
    (seq 1 bound).

End ScoreCheck.

(* ===================================================================== *)
(** * Variations of an input                                              *)
(* ===================================================================== *)

Module Variations.
Import Py Repositories Services.

(** The keys each validator reads. *)
Definition candidate_fields : list pystr :=
  [str "name"; str "email"; str "skills"; str "years_experience"].
Definition job_fields : list pystr :=
  [str "title"; str "location"; str "skills_required"].

(** The messages of lines 28, 33, 37 and 41, by field. *)
Definition candidate_messages : gmap pystr pystr :=
  list_to_map
    [ (str "name", str "name must be a non-empty string");
      (str "email", str "email must be a valid email-like string");
      (str "skills", str "skills must be a list of strings");
      (str "years_experience",
       str "years_experience must be a non-negative integer") ].

(** The messages of lines 54, 58 and 64-66, by field. *)
Definition job_messages : gmap pystr pystr :=
  list_to_map
    [ (str "title", str "title must be a non-empty string");
      (str "location", str "location must be a non-empty string");
      (str "skills_required",
       str "skills_required must be a list of non-empty strings") ].

(** A validated candidate tuple, sent again as a payload. *)
Definition candidate_payload_of (t : pystr * pystr * list pystr * pyval)
    : gmap pystr pyval :=
  let '(n, e, ss, y) := t in
  <[str "name" := PStr n]>
    (<[str "email" := PStr e]>
       (<[str "skills" := PList (PStr <$> ss)]>
          (<[str "years_experience" := y]> ∅))).

(** A validated job tuple, sent again as a payload. *)
Definition job_payload_of (t : pystr * pystr * list pystr)
    : gmap pystr pyval :=
  let '(title, loc, ss) := t in
  <[str "title" := PStr title]>
    (<[str "location" := PStr loc]>
       (<[str "skills_required" := PList (PStr <$> ss)]> ∅)).

(** The same candidate with another [years_experience]. *)
Definition with_years (years : Z) (c : Candidate) : Candidate :=
  {| name := name c; email := email c; skills := skills c;
     years_experience := years; metadata := metadata c |}.

(** The same job with other required skills. *)
Definition with_skills_required (required : list pystr) (j : Job) : Job :=
  {| title := title j; location := location j; skills_required := required |}.

End Variations.

(* ===================================================================== *)
(** * Properties                                                          *)
(* ===================================================================== *)

Import Py Repositories Services Contract Inputs Checks ScoreCheck.

(** ** Trimming *)

Lemma lstrip_head s c : head (lstrip s) = Some c → isspace c = false.
Proof.
  induction s as [|a s IH]; simpl; [done|].
  destruct (isspace a) eqn:Ha; [done|].
  simpl. by intros [= <-].
Qed.

Lemma lstrip_suffix s : lstrip s `suffix_of` s.
Proof.
  induction s as [|a s IH]; simpl; [done|].
  destruct (isspace a); [by apply suffix_cons_r | done].
Qed.

Lemma rstrip_prefix s : rstrip s `prefix_of` s.
Proof.
  unfold rstrip. destruct (lstrip_suffix (reverse s)) as [k Hk].
  exists (reverse k). apply (f_equal reverse) in Hk.
  by rewrite reverse_involutive, reverse_app in Hk.
Qed.

Lemma rstrip_last s c : last (rstrip s) = Some c → isspace c = false.
Proof. unfold rstrip. rewrite last_reverse. apply lstrip_head. Qed.

Lemma strip_trimmed s : trimmed (strip s).
Proof.
  split; intros c Hc.
  - unfold strip in Hc.
    destruct (rstrip_prefix (lstrip s)) as [k Hk].
    destruct (rstrip (lstrip s)) as [|a r] eqn:Hr; [done|].
    simpl in Hc. injection Hc as ->.
    apply (lstrip_head s). by rewrite Hk.
  - by apply (rstrip_last (lstrip s)).
Qed.

Lemma lstrip_nil_iff s : lstrip s = [] ↔ Forall (fun c => isspace c = true) s.
Proof.
  induction s as [|a s IH]; simpl.
  - split; [constructor | done].
  - destruct (isspace a) eqn:Ha.
    + rewrite IH. split; [by constructor | by inversion 1].
    + split; [done | inversion 1; congruence].
Qed.

(** Trimming empties exactly the strings made of whitespace. *)
Lemma blank_iff s : blank s ↔ Forall (fun c => isspace c = true) s.
Proof.
  unfold blank, strip, rstrip. rewrite <- lstrip_nil_iff. split.
  - intros H. apply (f_equal reverse) in H.
    rewrite reverse_involutive, reverse_nil in H.
    apply lstrip_nil_iff in H. rewrite Forall_reverse in H.
    destruct (lstrip s) as [|a r] eqn:Hs; [done|].
    inversion H as [|? ? Ha _]; subst.
    assert (isspace a = false) by (apply (lstrip_head s); by rewrite Hs).
    congruence.
  - by intros ->.
Qed.

(** ** The validators *)

Lemma bind_ok {A B} (a : A) (k : A → result B) : bind (Ok a) k = k a.
Proof. reflexivity. Qed.

Lemma py_all_pure {A} (f : A → result bool) (g : A → bool) l :
  (∀ x, f x = Ok (g x)) → py_all f l = Ok (forallb g l).
Proof.
  intros Hf. induction l as [|x l IH]; simpl; [done|].
  rewrite Hf, bind_ok. by destruct (g x).
Qed.

Lemma guard_nonempty_str v :
  or_else (negb (isinstance_str v))
    (s <- py_strip v; Ok (negb (truthy (PStr s))))
  = Ok (negb (nonempty_strb v)).
Proof. by destruct v. Qed.

Lemma guard_email v :
  or_else (negb (isinstance_str v)) (not_in (str "@") v)
  = Ok (negb (email_likeb v)).
Proof. by destruct v. Qed.

Lemma guard_skills v :
  or_else (negb (isinstance_list v))
    (l <- iter v;
     b <- py_all (fun s : pyval => Ok (isinstance_str s)) l;
     Ok (negb b))
  = Ok (negb (list_of_strb v)).
Proof.
  destruct v; try done. simpl.
  by rewrite (py_all_pure _ isinstance_str).
Qed.

Lemma guard_years v :
  or_else (negb (isinstance_int v)) (z <- int_value v; Ok (z <? 0))
  = Ok (negb (nonneg_intb v)).
Proof.
  destruct v as [|[]|z| | | |]; try done. simpl.
  by rewrite negb_involutive.
Qed.

Lemma guard_skills_required v :
  or_else (negb (isinstance_list v))
    (l <- iter v;
     b <- py_all (fun s : pyval =>
            and_then (isinstance_str s)
              (t <- py_strip s; Ok (truthy (PStr t)))) l;
     Ok (negb b))
  = Ok (negb (list_of_nonempty_strb v)).
Proof.
  destruct v; try done. simpl.
  rewrite (py_all_pure _ nonempty_strb); [done|].
  by intros [].
Qed.

(** The candidate validator runs its four checks unconditionally and only
    then looks at [errors]. *)
Lemma validate_candidate_payload_eq payload :
  validate_candidate_payload payload =
    if negb (bool_decide (candidate_errors payload = ∅))
    then Raise (ValidationError (candidate_errors payload))
    else
      n <- py_strip (dict_get payload (str "name"));
      e <- py_strip (dict_get payload (str "email"));
      l <- iter (dict_get payload (str "skills"));
      ss <- map_result py_strip l;
      Ok (n, e, ss, dict_get payload (str "years_experience")).
Proof.
  unfold validate_candidate_payload.
  rewrite guard_nonempty_str, bind_ok, guard_email, bind_ok.
  rewrite guard_skills, bind_ok, guard_years, bind_ok.
  reflexivity.
Qed.

Lemma validate_job_payload_eq payload :
  validate_job_payload payload =
    if negb (bool_decide (job_errors payload = ∅))
    then Raise (ValidationError (job_errors payload))
    else
      t <- py_strip (dict_get payload (str "title"));
      loc <- py_strip (dict_get payload (str "location"));
      l <- iter (dict_get payload (str "skills_required"));
      ss <- map_result py_strip l;
      Ok (t, loc, ss).
Proof.
  unfold validate_job_payload.
  rewrite !guard_nonempty_str, !bind_ok.
  rewrite guard_skills_required, bind_ok.
  reflexivity.
Qed.

(** *** The boolean checks decide the contracts *)

Lemma nonempty_strb_spec v : nonempty_strb v = true ↔ nonempty_str v.
Proof.
  unfold nonempty_str. destruct v; simpl;
    try (split; [done | by intros (? & ? & ?)]).
  rewrite negb_true_iff, bool_decide_eq_false. split.
  - intros H. by exists s.
  - by intros (? & [= <-] & ?).
Qed.

Lemma startswith_singleton c s :
  startswith [c] s = true ↔ head s = Some c.
Proof.
  destruct s as [|a s]; simpl; [done|].
  rewrite andb_true_r, N.eqb_eq. split; [by intros -> | by intros [= ->]].
Qed.

Lemma str_in_singleton c s : str_in [c] s = true ↔ c ∈ s.
Proof.
  induction s as [|a s IH].
  - simpl. split; [done | by intros ?%elem_of_nil].
  - change (str_in [c] (a :: s))
      with (startswith [c] (a :: s) || str_in [c] s).
    rewrite orb_true_iff, startswith_singleton, IH, elem_of_cons. simpl.
    split; (intros [H|H]; [left; congruence | by right]).
Qed.

Lemma email_likeb_spec v : email_likeb v = true ↔ email_like v.
Proof.
  unfold email_like. destruct v; simpl;
    try (split; [done | by intros (? & ? & ?)]).
  change (str "@") with [64%N]. rewrite str_in_singleton. split.
  - intros H. by exists s.
  - by intros (? & [= <-] & ?).
Qed.

Lemma forallb_Forall {A} (f : A → bool) l :
  forallb f l = true ↔ Forall (fun x => f x = true) l.
Proof.
  induction l as [|x l IH]; simpl.
  - split; [constructor | done].
  - rewrite andb_true_iff, IH, Forall_cons. done.
Qed.

Lemma list_of_strb_spec v : list_of_strb v = true ↔ list_of_str v.
Proof.
  unfold list_of_str. destruct v; simpl;
    try (split; [done | by intros (? & ? & ?)]).
  rewrite forallb_Forall. split.
  - intros H. exists l. split; [done|].
    eapply Forall_impl; [exact H|]. intros [] ?; try done. by eexists.
  - intros (? & [= <-] & H). eapply Forall_impl; [exact H|].
    by intros ? [? ->].
Qed.

Lemma nonneg_intb_spec v : nonneg_intb v = true ↔ nonneg_int v.
Proof.
  unfold nonneg_int. destruct v; simpl;
    try (split; [done | by intros [(? & ? & ?)|(? & ?)]]).
  - split; [intros _; right; by eexists | done].
  - rewrite negb_true_iff, Z.ltb_ge. split.
    + intros H. left. by exists z.
    + by intros [(? & [= <-] & ?)|(? & ?)].
Qed.

Lemma list_of_nonempty_strb_spec v :
  list_of_nonempty_strb v = true ↔ list_of_nonempty_str v.
Proof.
  unfold list_of_nonempty_str. destruct v; simpl;
    try (split; [done | by intros (? & ? & ?)]).
  rewrite forallb_Forall. split.
  - intros H. exists l. split; [done|].
    eapply Forall_impl; [exact H|]. intros ?. apply nonempty_strb_spec.
  - intros (? & [= <-] & H). eapply Forall_impl; [exact H|].
    intros ?. apply nonempty_strb_spec.
Qed.

(** *** The [errors] mapping lists the offending fields, all of them *)

Lemma record_error_dom (b : bool) (key message : string)
    (errors : gmap pystr pystr) (f : pystr) :
  f ∈ dom (record_error b key message errors)
  ↔ (b = true ∧ f = str key) ∨ f ∈ dom errors.
Proof.
  unfold record_error. destruct b.
  - rewrite dom_insert_L, elem_of_union, elem_of_singleton.
    split; (intros [H|H]; [left; tauto | by right]).
  - split; [by right | by intros [[? _]|?]].
Qed.

Lemma negb_decides (b : bool) (P : Prop) :
  (b = true ↔ P) → (negb b = true ↔ ¬ P).
Proof.
  destruct b; simpl; intros [H1 H2]; split; try done.
  - intros HP. destruct HP. by apply H1.
  - intros _ HP. by specialize (H2 HP).
Qed.

Lemma candidate_errors_dom (payload : gmap pystr pyval) (f : pystr) :
  f ∈ dom (candidate_errors payload) ↔ candidate_offence payload f.
Proof.
  unfold candidate_errors, candidate_offence.
  rewrite !record_error_dom, dom_empty_L.
  rewrite (negb_decides _ _ (nonempty_strb_spec _)).
  rewrite (negb_decides _ _ (email_likeb_spec _)).
  rewrite (negb_decides _ _ (list_of_strb_spec _)).
  rewrite (negb_decides _ _ (nonneg_intb_spec _)).
  rewrite elem_of_empty. tauto.
Qed.

Lemma job_errors_dom (payload : gmap pystr pyval) (f : pystr) :
  f ∈ dom (job_errors payload) ↔ job_offence payload f.
Proof.
  unfold job_errors, job_offence.
  rewrite !record_error_dom, dom_empty_L.
  rewrite !(negb_decides _ _ (nonempty_strb_spec _)).
  rewrite (negb_decides _ _ (list_of_nonempty_strb_spec _)).
  rewrite elem_of_empty. tauto.
Qed.

Lemma errors_empty_or_not (errors : gmap pystr pystr) :
  errors = ∅ ∧ (∀ f, f ∉ dom errors) ∨ errors ≠ ∅ ∧ (∃ f, f ∈ dom errors).
Proof.
  destruct (decide (errors = ∅)) as [->|Hne]; [left | right]; split; try done.
  apply set_choose_L. by rewrite dom_empty_iff_L.
Qed.

Lemma map_result_strip l :
  Forall (fun x => ∃ s, x = PStr s) l →
  ∃ raw, l = PStr <$> raw ∧ map_result py_strip l = Ok (strip <$> raw).
Proof.
  induction 1 as [|x l [s ->] _ (raw & -> & IH)].
  - by exists [].
  - exists (s :: raw). split; [done|]. simpl. by rewrite IH.
Qed.

Lemma nonempty_str_is_str v :
  nonempty_str v → ∃ s, v = PStr s ∧ strip s ≠ [].
Proof. done. Qed.

Lemma list_of_nonempty_str_raw l :
  Forall nonempty_str l → Forall (fun x => ∃ s, x = PStr s) l.
Proof.
  intros H. eapply Forall_impl; [exact H|].
  intros ? (s & -> & _). by eexists.
Qed.

(** A contract that does not hold is an offence: the contracts are
    decidable. *)
Lemma contract_holds (b : bool) (P : Prop) :
  (b = true ↔ P) → ¬ ¬ P → P.
Proof. destruct b; intros [H1 H2] H; [auto | destruct H; intros ?%H2; done]. Qed.

Lemma validate_candidate_payload_spec payload :
  (∃ n e raw,
     dict_get payload (str "name") = PStr n
     ∧ dict_get payload (str "email") = PStr e
     ∧ dict_get payload (str "skills") = PList (PStr <$> raw)
     ∧ (∀ f, ¬ candidate_offence payload f)
     ∧ validate_candidate_payload payload
       = Ok (strip n, strip e, strip <$> raw,
             dict_get payload (str "years_experience")))
  ∨ (∃ errors,
       validate_candidate_payload payload = Raise (ValidationError errors)
       ∧ (∃ f, candidate_offence payload f)
       ∧ ∀ f, f ∈ dom errors ↔ candidate_offence payload f).
Proof.
  rewrite validate_candidate_payload_eq.
  destruct (errors_empty_or_not (candidate_errors payload))
    as [[Hempty Hnone]|[Hne [f Hf]]].
  - left. rewrite Hempty, bool_decide_eq_true_2 by done. simpl.
    assert (Hok : ∀ f, ¬ candidate_offence payload f).
    { intros f ?%candidate_errors_dom. by eapply Hnone. }
    assert (nonempty_str (dict_get payload (str "name"))) as (n & Hn & _).
    { apply (contract_holds _ _ (nonempty_strb_spec _)). intros ?.
      apply (Hok (str "name")). by left. }
    assert (email_like (dict_get payload (str "email"))) as (e & He & _).
    { apply (contract_holds _ _ (email_likeb_spec _)). intros ?.
      apply (Hok (str "email")). right; by left. }
    assert (list_of_str (dict_get payload (str "skills"))) as (l & Hl & Hstr).
    { apply (contract_holds _ _ (list_of_strb_spec _)). intros ?.
      apply (Hok (str "skills")). right; right; by left. }
    destruct (map_result_strip l Hstr) as (raw & -> & Hmap).
    exists n, e, raw. rewrite Hn, He, Hl. simpl. by rewrite Hmap.
  - right. exists (candidate_errors payload).
    rewrite bool_decide_eq_false_2 by done. simpl.
    split; [done|]. split; [|apply candidate_errors_dom].
    exists f. by apply candidate_errors_dom.
Qed.

Lemma validate_job_payload_spec payload :
  (∃ t loc raw,
     dict_get payload (str "title") = PStr t
     ∧ dict_get payload (str "location") = PStr loc
     ∧ dict_get payload (str "skills_required") = PList (PStr <$> raw)
     ∧ (∀ f, ¬ job_offence payload f)
     ∧ validate_job_payload payload = Ok (strip t, strip loc, strip <$> raw))
  ∨ (∃ errors,
       validate_job_payload payload = Raise (ValidationError errors)
       ∧ (∃ f, job_offence payload f)
       ∧ ∀ f, f ∈ dom errors ↔ job_offence payload f).
Proof.
  rewrite validate_job_payload_eq.
  destruct (errors_empty_or_not (job_errors payload))
    as [[Hempty Hnone]|[Hne [f Hf]]].
  - left. rewrite Hempty, bool_decide_eq_true_2 by done. simpl.
    assert (Hok : ∀ f, ¬ job_offence payload f).
    { intros f ?%job_errors_dom. by eapply Hnone. }
    assert (nonempty_str (dict_get payload (str "title"))) as (t & Ht & _).
    { apply (contract_holds _ _ (nonempty_strb_spec _)). intros ?.
      apply (Hok (str "title")). by left. }
    assert (nonempty_str (dict_get payload (str "location")))
      as (loc & Hloc & _).
    { apply (contract_holds _ _ (nonempty_strb_spec _)). intros ?.
      apply (Hok (str "location")). right; by left. }
    assert (list_of_nonempty_str (dict_get payload (str "skills_required")))
      as (l & Hl & Hstr).
    { apply (contract_holds _ _ (list_of_nonempty_strb_spec _)). intros ?.
      apply (Hok (str "skills_required")). right; by right. }
    destruct (map_result_strip l (list_of_nonempty_str_raw l Hstr))
      as (raw & -> & Hmap).
    exists t, loc, raw. rewrite Ht, Hloc, Hl. simpl. by rewrite Hmap.
  - right. exists (job_errors payload).
    rewrite bool_decide_eq_false_2 by done. simpl.
    split; [done|]. split; [|apply job_errors_dom].
    exists f. by apply job_errors_dom.
Qed.

Lemma Forall_strip_trimmed raw : Forall trimmed (strip <$> raw).
Proof. apply Forall_fmap, Forall_true. intros s. apply strip_trimmed. Qed.

(** C4, as stated, fails on a boolean [years_experience], which the
    specification does not count as an integer: the payload of section 8
    with [True] for it comes back as a tuple holding [True], and with a
    blank name as well the error mapping names [name] alone. *)
Lemma C4_boolean_years_counterexample :
  candidate_offence_as_specified true_years_payload (str "years_experience")
  ∧ validate_candidate_payload true_years_payload
    = Ok (str "Ann", str "a@b.com", [str "Go"; str "sql"], PBool true)
  ∧ candidate_offence_as_specified blank_name_true_years_payload
      (str "years_experience")
  ∧ validate_candidate_payload blank_name_true_years_payload
    = Raise (ValidationError
               {[ str "name" := str "name must be a non-empty string" ]}).
Proof.
  assert (Hbool : ¬ integer_at_least_0 (PBool true))
    by (by intros (? & ? & ?)).
  split; [|split; [|split]].
  - right; right; right. split; [done|]. exact Hbool.
  - by vm_compute.
  - right; right; right. split; [done|]. exact Hbool.
  - by vm_compute.
Qed.

(** C4, amended: with [years_experience] valid when it is a Python [int]
    that is not negative, [True] and [False] included, on every payload
    each validator either returns the tuple of the trimmed fields (name,
    email and every skill for a candidate; title, location and every
    required skill for a job), and then no field is missing or invalid, or
    raises a [ValidationError] whose mapping has exactly the missing or
    invalid fields as keys.  All the checks run before the mapping is
    looked at, so nothing is reported alone that has company, and no tuple
    is returned beside an offence. *)
Theorem C4_validators_all_or_nothing (payload : gmap pystr pyval) :
  ((∃ n e raw,
      dict_get payload (str "name") = PStr n
      ∧ dict_get payload (str "email") = PStr e
      ∧ dict_get payload (str "skills") = PList (PStr <$> raw)
      ∧ validate_candidate_payload payload
        = Ok (strip n, strip e, strip <$> raw,
              dict_get payload (str "years_experience"))
      ∧ trimmed (strip n) ∧ trimmed (strip e)
      ∧ Forall trimmed (strip <$> raw)
      ∧ ∀ f, ¬ candidate_offence payload f)
   ∨ (∃ errors,
        validate_candidate_payload payload = Raise (ValidationError errors)
        ∧ (∃ f, candidate_offence payload f)
        ∧ ∀ f, f ∈ dom errors ↔ candidate_offence payload f))
  ∧
  ((∃ t loc raw,
      dict_get payload (str "title") = PStr t
      ∧ dict_get payload (str "location") = PStr loc
      ∧ dict_get payload (str "skills_required") = PList (PStr <$> raw)
      ∧ validate_job_payload payload = Ok (strip t, strip loc, strip <$> raw)
      ∧ trimmed (strip t) ∧ trimmed (strip loc)
      ∧ Forall trimmed (strip <$> raw)
      ∧ ∀ f, ¬ job_offence payload f)
   ∨ (∃ errors,
        validate_job_payload payload = Raise (ValidationError errors)
        ∧ (∃ f, job_offence payload f)
        ∧ ∀ f, f ∈ dom errors ↔ job_offence payload f)).
Proof.
  split.
  - destruct (validate_candidate_payload_spec payload)
      as [(n & e & raw & Hn & He & Hs & Hok & Hv)|Herr]; [left | by right].
    exists n, e, raw.
    repeat split; try done; try apply strip_trimmed.
    apply Forall_strip_trimmed.
  - destruct (validate_job_payload_spec payload)
      as [(t & loc & raw & Ht & Hl & Hs & Hok & Hv)|Herr]; [left | by right].
    exists t, loc, raw.
    repeat split; try done; try apply strip_trimmed.
    apply Forall_strip_trimmed.
Qed.

(** C8: a job payload whose [skills_required] list holds a string that is
    empty or all whitespace is refused with a [ValidationError] that names
    [skills_required]; a payload whose three fields meet the contract comes
    back as the trimmed title, the trimmed location and the list of the
    trimmed required skills. *)
Theorem C8_job_skills_required (payload : gmap pystr pyval) :
  (∀ l s,
     dict_get payload (str "skills_required") = PList l →
     PStr s ∈ l → blank s →
     ∃ errors,
       validate_job_payload payload = Raise (ValidationError errors)
       ∧ str "skills_required" ∈ dom errors)
  ∧
  (∀ t loc raw,
     dict_get payload (str "title") = PStr t → ¬ blank t →
     dict_get payload (str "location") = PStr loc → ¬ blank loc →
     dict_get payload (str "skills_required") = PList (PStr <$> raw) →
     Forall (fun s => ¬ blank s) raw →
     validate_job_payload payload = Ok (strip t, strip loc, strip <$> raw)
     ∧ trimmed (strip t) ∧ trimmed (strip loc)
     ∧ Forall trimmed (strip <$> raw)).
Proof.
  split.
  - intros l s Hl Hs Hblank.
    assert (Hoff : job_offence payload (str "skills_required")).
    { right; right. split; [done|]. rewrite Hl.
      intros (l' & [= <-] & Hall).
      rewrite Forall_forall in Hall.
      destruct (Hall _ Hs) as (s' & [= <-] & Hne). done. }
    destruct (validate_job_payload_spec payload)
      as [(? & ? & ? & _ & _ & _ & Hok & _)|(errors & Hv & _ & Hdom)].
    + by destruct (Hok _ Hoff).
    + exists errors. split; [done|]. by apply Hdom.
  - intros t loc raw Ht Hnt Hloc Hnl Hs Hraw.
    destruct (validate_job_payload_spec payload)
      as [(t' & loc' & raw' & Ht' & Hl' & Hs' & _ & Hv)
         |(errors & _ & [f Hf] & _)].
    + rewrite Ht in Ht'. rewrite Hloc in Hl'. rewrite Hs in Hs'.
      injection Ht' as <-. injection Hl' as <-. injection Hs' as Hs'.
      assert (Inj (=) (=) PStr) by (by intros ?? [=]).
      apply (inj (fmap PStr)) in Hs' as <-.
      repeat split; try done; try apply strip_trimmed.
      apply Forall_strip_trimmed.
    + exfalso. destruct Hf as [[_ Hf]|[[_ Hf]|[_ Hf]]]; apply Hf.
      * rewrite Ht. by exists t.
      * rewrite Hloc. by exists loc.
      * rewrite Hs. eexists. split; [done|].
        apply Forall_fmap. eapply Forall_impl; [exact Hraw|].
        intros s ?. by exists s.
Qed.

Lemma C8_job_skills_required_witness :
  (∃ errors,
     validate_job_payload blank_skill_job_payload
       = Raise (ValidationError errors)
     ∧ str "skills_required" ∈ dom errors)
  ∧ validate_job_payload eng_job_payload
    = Ok (str "Eng", str "NYC", [str "Go"; str "SQL"]).
Proof.
  split.
  - apply (proj1 (C8_job_skills_required blank_skill_job_payload)
             [PStr (str "Go"); PStr (str "  ")] (str "  ")).
    + reflexivity.
    + apply list_elem_of_further, list_elem_of_here.
    + reflexivity.
  - apply (proj2 (C8_job_skills_required eng_job_payload)
             (str " Eng ") (str " NYC ") [str "Go"; str " SQL "]).
    + reflexivity.
    + unfold blank. vm_compute. discriminate.
    + reflexivity.
    + unfold blank. vm_compute. discriminate.
    + reflexivity.
    + repeat constructor; unfold blank; vm_compute; discriminate.
Defined.

(** C9: the candidate payload of the specification validates to
    [("Ann", "a@b.com", ["Go", "sql"], 3)]: name, email and each skill
    trimmed, [years_experience] handed on as it came. *)
Theorem C9_ann_payload :
  validate_candidate_payload ann_payload
  = Ok (str "Ann", str "a@b.com", [str "Go"; str "sql"], PInt 3).
Proof. vm_compute. reflexivity. Qed.

(** ** The chain of skill tests *)

Lemma list_getitem_lookup {A} (l : list A) i x :
  l !! i = Some x → list_getitem l i = Ok x.
Proof. unfold list_getitem. by intros ->. Qed.

Lemma elif_guard_eq i candidate_skills job_skills :
  elif_guard i candidate_skills job_skills
  = Ok (hit i candidate_skills job_skills).
Proof.
  unfold elif_guard, hit, and_then, list_getitem.
  destruct (i <? length candidate_skills)%nat eqn:Hi.
  - apply Nat.ltb_lt, lookup_lt_is_Some in Hi as [c ->]. done.
  - apply Nat.ltb_ge, lookup_ge_None in Hi as ->. done.
Qed.

Lemma scan_count (job_skills l : list pystr) (n : nat) :
  foldl (fun matched_count skill =>
           if list_in skill job_skills then (matched_count + 1)%nat
           else matched_count) n l
  = (n + length (filter (fun s => s ∈ job_skills) l))%nat.
Proof.
  revert n. induction l as [|s l IH]; intros n.
  - rewrite filter_nil. simpl. lia.
  - simpl. rewrite IH, filter_cons. unfold list_in.
    destruct (decide (s ∈ job_skills)) as [Hs|Hs].
    + rewrite bool_decide_eq_true_2 by done. simpl. lia.
    + rewrite bool_decide_eq_false_2 by done. lia.
Qed.

(** With a first candidate skill to look at, the chain raises nothing. *)
Lemma match_skills_eq candidate_skills job_skills :
  candidate_skills ≠ [] →
  match_skills candidate_skills job_skills
  = Ok (chain candidate_skills job_skills).
Proof.
  intros Hne. destruct candidate_skills as [|c0 rest]; [done|].
  unfold match_skills, chain. rewrite !elif_guard_eq.
  change (hit 0 (c0 :: rest) job_skills) with (list_in c0 job_skills).
  change (list_getitem (c0 :: rest) 0) with (Ok c0).
  cbn [bind].
  destruct (list_in c0 job_skills); [done|].
  destruct (hit 1 _ _); [done|]. destruct (hit 2 _ _); [done|].
  destruct (hit 3 _ _); [done|]. destruct (hit 4 _ _); [done|].
  by rewrite scan_count.
Qed.

Lemma match_skills_nil job_skills :
  match_skills [] job_skills = Raise IndexError.
Proof. reflexivity. Qed.

Lemma hit_matches_at i candidate_skills job_skills :
  hit i candidate_skills job_skills = true
  ↔ matches_at i candidate_skills job_skills.
Proof.
  unfold hit, matches_at, list_in.
  destruct (candidate_skills !! i) as [c|].
  - rewrite bool_decide_eq_true. split.
    + intros Hc. exists c. by split.
    + by intros (? & [= <-] & ?).
  - split; [done | by intros (? & ? & ?)].
Qed.

Lemma hit_take i candidate_skills candidate_skills' job_skills :
  (i < 5)%nat →
  take 5 candidate_skills' = take 5 candidate_skills →
  hit i candidate_skills' job_skills = hit i candidate_skills job_skills.
Proof.
  intros Hi Htake. unfold hit.
  rewrite <- (lookup_take_lt candidate_skills' 5 i) by done.
  rewrite <- (lookup_take_lt candidate_skills 5 i) by done.
  by rewrite Htake.
Qed.

Lemma chain_arm candidate_skills job_skills k :
  (k < 5)%nat →
  hit k candidate_skills job_skills = true →
  (∀ i, (i < k)%nat → hit i candidate_skills job_skills = false) →
  chain candidate_skills job_skills = (Arm k, 1%nat).
Proof.
  intros Hk Hhit Hlt. unfold chain.
  destruct k as [|[|[|[|[|?]]]]]; [..|lia];
    try (rewrite (Hlt 0%nat) by lia); try (rewrite (Hlt 1%nat) by lia);
    try (rewrite (Hlt 2%nat) by lia); try (rewrite (Hlt 3%nat) by lia);
    by rewrite Hhit.
Qed.

Lemma chain_scan candidate_skills job_skills :
  (∀ i, (i < 5)%nat → hit i candidate_skills job_skills = false) →
  chain candidate_skills job_skills
  = (Scan, length (filter (fun s => s ∈ job_skills) (drop 5 candidate_skills))).
Proof.
  intros Hno. unfold chain.
  rewrite (Hno 0%nat), (Hno 1%nat), (Hno 2%nat), (Hno 3%nat), (Hno 4%nat)
    by lia.
  done.
Qed.

(** Among the first five positions, the first that matches. *)
Lemma hit_least candidate_skills job_skills :
  (∃ i, (i < 5)%nat ∧ hit i candidate_skills job_skills = true) →
  ∃ k, (k < 5)%nat
    ∧ hit k candidate_skills job_skills = true
    ∧ ∀ i, (i < k)%nat → hit i candidate_skills job_skills = false.
Proof.
  intros (i & Hi & Hhit).
  destruct (hit 0 candidate_skills job_skills) eqn:H0;
    [exists 0%nat; repeat split; [lia | done | lia] |].
  destruct (hit 1 candidate_skills job_skills) eqn:H1;
    [exists 1%nat; repeat split; [lia | done |];
     intros [|?] ?; [done | lia] |].
  destruct (hit 2 candidate_skills job_skills) eqn:H2;
    [exists 2%nat; repeat split; [lia | done |];
     intros [|[|?]] ?; [done | done | lia] |].
  destruct (hit 3 candidate_skills job_skills) eqn:H3;
    [exists 3%nat; repeat split; [lia | done |];
     intros [|[|[|?]]] ?; [done | done | done | lia] |].
  destruct (hit 4 candidate_skills job_skills) eqn:H4;
    [exists 4%nat; repeat split; [lia | done |];
     intros [|[|[|[|?]]]] ?; [done | done | done | done | lia] |].
  destruct i as [|[|[|[|[|?]]]]]; [congruence.. | lia].
Qed.

(** C10: in [calculate_match_score], when one of the first five lowered
    candidate skills is among the lowered required skills, the arm of the
    first such position is the one that runs, [matched_count] is 1, and the
    skills from the sixth on are not looked at: any list with the same
    first five gives the same arm and the same count.  The sixth and later
    skills are counted exactly when none of the first five matches. *)
Theorem C10_first_five_short_circuit (lower : pystr → pystr)
    (candidate : Candidate) (job : Job) :
  let candidate_skills := lower <$> skills candidate in
  let job_skills := lower <$> skills_required job in
  skills candidate ≠ [] →
  ((∃ i, (i < 5)%nat ∧ matches_at i candidate_skills job_skills) →
   ∃ k, (k < 5)%nat
     ∧ matches_at k candidate_skills job_skills
     ∧ (∀ i, (i < k)%nat → ¬ matches_at i candidate_skills job_skills)
     ∧ match_skills candidate_skills job_skills = Ok (Arm k, 1%nat)
     ∧ ∀ other,
         take 5 other = take 5 candidate_skills →
         match_skills other job_skills = Ok (Arm k, 1%nat))
  ∧ ((∀ i, (i < 5)%nat → ¬ matches_at i candidate_skills job_skills) →
     match_skills candidate_skills job_skills
     = Ok (Scan,
           length (filter (fun s => s ∈ job_skills) (drop 5 candidate_skills)))).
Proof.
  intros cs js Hne.
  assert (Hcs : cs ≠ []).
  { subst cs. by destruct (skills candidate). }
  split.
  - intros (i & Hi & Hm).
    destruct (hit_least cs js) as (k & Hk & Hhit & Hlt).
    { exists i. split; [done|]. by apply hit_matches_at. }
    exists k. split; [done|]. split; [by apply hit_matches_at|].
    split.
    { intros i' Hi' Hm'%hit_matches_at. by rewrite (Hlt i' Hi') in Hm'. }
    split.
    + rewrite match_skills_eq by done. f_equal. by apply chain_arm.
    + intros other Htake.
      rewrite match_skills_eq.
      * f_equal. apply chain_arm; [done| |].
        -- rewrite (hit_take k cs) by done. done.
        -- intros i' Hi'. rewrite (hit_take i' cs) by (done || lia). auto.
      * intros ->. destruct cs; [done|]. discriminate Htake.
  - intros Hno. rewrite match_skills_eq by done. f_equal.
    apply chain_scan. intros i Hi.
    destruct (hit i cs js) eqn:Hhit; [|done].
    apply hit_matches_at in Hhit. by destruct (Hno i Hi).
Qed.

Lemma C10_first_five_short_circuit_witness :
  ∃ k, (k < 5)%nat
    ∧ match_skills (lower_ascii <$> skills premium_candidate)
        (lower_ascii <$> skills_required three_skill_job)
      = Ok (Arm k, 1%nat).
Proof.
  destruct (proj1 (C10_first_five_short_circuit lower_ascii
                     premium_candidate three_skill_job
                     ltac:(discriminate)))
    as (k & Hk & _ & _ & Hm & _).
  - exists 0%nat. split; [lia|]. exists (str "go"). split; [reflexivity|].
    apply list_elem_of_here.
  - exists k. by split.
Defined.

(** ** The scorer *)

Lemma truthy_list_false {A} (l : list A) : truthy_list l = false ↔ l = [].
Proof. by destruct l. Qed.

(** Past the two early returns and the metadata lookups, the score is a
    function of the chain's count. *)
Lemma calculate_match_score_eq lower candidate job base_multiplier arm
    matched_count :
  skills_required job ≠ [] →
  read_metadata candidate = Ok base_multiplier →
  match_skills (lower <$> skills candidate) (lower <$> skills_required job)
  = Ok (arm, matched_count) →
  calculate_match_score lower candidate job
  = if (matched_count =? 0)%nat then Ok 0
    else
      s <- score (years_experience candidate) matched_count
             (length (skills_required job));
      Ok (Z.min s 100).
Proof.
  intros Hjob Hmeta Hchain. unfold calculate_match_score.
  destruct (skills candidate) as [|c0 rest] eqn:Hskills.
  { by rewrite match_skills_nil in Hchain. }
  destruct (skills_required job) as [|j0 jrest] eqn:Hreq; [done|].
  cbn [truthy_list negb orb].
  rewrite Hmeta. cbn [bind]. rewrite Hchain. cbn [bind].
  by rewrite length_fmap.
Qed.

(** C5: a candidate without skills, or a job that requires none, scores 0
    whatever else the two objects hold; the metadata is not even read. *)
Theorem C5_empty_skills_score_zero (lower : pystr → pystr)
    (candidate : Candidate) (job : Job) :
  skills candidate = [] ∨ skills_required job = [] →
  calculate_match_score lower candidate job = Ok 0.
Proof.
  intros [H|H]; unfold calculate_match_score; rewrite H.
  - reflexivity.
  - by destruct (skills candidate).
Qed.

Lemma C5_empty_skills_score_zero_witness :
  calculate_match_score lower_ascii
    (candidate_with [] 40 (Some no_weights)) three_skill_job = Ok 0
  ∧ calculate_match_score lower_ascii premium_candidate (job_with []) = Ok 0.
Proof.
  split.
  - apply (C5_empty_skills_score_zero lower_ascii). left. reflexivity.
  - apply (C5_empty_skills_score_zero lower_ascii). right. reflexivity.
Defined.

(** *** The chain against the membership count *)

Lemma membership_count_lowered lower candidate_skills job_skills :
  membership_count lower candidate_skills job_skills
  = length (filter (fun s => s ∈ lower <$> job_skills)
              (lower <$> candidate_skills)).
Proof.
  unfold membership_count.
  induction candidate_skills as [|c cs IH]; [done|].
  rewrite fmap_cons, !filter_cons.
  destruct (decide (lower c ∈ lower <$> job_skills)); simpl; by rewrite IH.
Qed.

Lemma hit_any_or_none candidate_skills job_skills :
  (∀ i, (i < 5)%nat → hit i candidate_skills job_skills = false)
  ∨ (∃ i, (i < 5)%nat ∧ hit i candidate_skills job_skills = true).
Proof.
  destruct (hit 0 candidate_skills job_skills) eqn:H0;
    [right; exists 0%nat; split; [lia | done] |].
  destruct (hit 1 candidate_skills job_skills) eqn:H1;
    [right; exists 1%nat; split; [lia | done] |].
  destruct (hit 2 candidate_skills job_skills) eqn:H2;
    [right; exists 2%nat; split; [lia | done] |].
  destruct (hit 3 candidate_skills job_skills) eqn:H3;
    [right; exists 3%nat; split; [lia | done] |].
  destruct (hit 4 candidate_skills job_skills) eqn:H4;
    [right; exists 4%nat; split; [lia | done] |].
  left. intros [|[|[|[|[|?]]]]] ?; [done.. | lia].
Qed.

Lemma filter_first_five_nil candidate_skills job_skills :
  (∀ i, (i < 5)%nat → hit i candidate_skills job_skills = false) →
  filter (fun s => s ∈ job_skills) (take 5 candidate_skills) = [].
Proof.
  intros Hno.
  destruct (filter _ (take 5 candidate_skills)) as [|s l] eqn:Hf; [done|].
  assert (Hs : s ∈ filter (fun s => s ∈ job_skills) (take 5 candidate_skills))
    by (rewrite Hf; apply list_elem_of_here).
  apply list_elem_of_filter in Hs as [Hin Htake].
  apply elem_of_take in Htake as (i & Hi & Hlt).
  specialize (Hno i Hlt). unfold hit, list_in in Hno. rewrite Hi in Hno.
  by apply bool_decide_eq_false in Hno.
Qed.

(** Where the chain and the membership count agree, and where they part:
    the scan of the [else] arm counts every match, an [if] or [elif] arm
    counts one match however many there are. *)
Lemma matched_count_vs_membership_count lower candidate job arm
    matched_count :
  match_skills (lower <$> skills candidate) (lower <$> skills_required job)
  = Ok (arm, matched_count) →
  (arm = Scan →
   matched_count
   = membership_count lower (skills candidate) (skills_required job))
  ∧ (arm ≠ Scan →
     matched_count = 1%nat
     ∧ (1 ≤ membership_count lower (skills candidate) (skills_required job))%nat).
Proof.
  set (cs := lower <$> skills candidate).
  set (js := lower <$> skills_required job).
  intros Hchain.
  assert (Hcs : cs ≠ []).
  { intros Hnil. by rewrite Hnil, match_skills_nil in Hchain. }
  rewrite match_skills_eq in Hchain by done.
  rewrite membership_count_lowered. fold cs js.
  destruct (hit_any_or_none cs js) as [Hno|Hsome].
  - rewrite (chain_scan cs js Hno) in Hchain.
    injection Hchain as <- <-. split; [intros _ | done].
    rewrite <- (take_drop 5 cs) at 2.
    by rewrite filter_app, (filter_first_five_nil cs js Hno).
  - destruct (hit_least cs js Hsome) as (k & Hk & Hhit & Hlt).
    rewrite (chain_arm cs js k Hk Hhit Hlt) in Hchain.
    injection Hchain as <- <-. split; [done | intros _].
    split; [done|].
    apply hit_matches_at in Hhit as (s & Hs & Hin).
    assert (Hmem : s ∈ filter (fun s => s ∈ js) cs).
    { apply list_elem_of_filter. split; [done|].
      apply list_elem_of_lookup. by exists k. }
    destruct (filter _ cs); [by apply elem_of_nil in Hmem | simpl; lia].
Qed.

(** C1 (the code departs from it): with the skills [go, sql] against a job
    that requires [go, sql], both candidate skills are among the required
    ones, yet the chain stops at its first arm with [matched_count] 1, and
    the score is 50. *)
Theorem C1_two_matches_counted_once (lower : pystr → pystr) :
  match_skills (lower <$> skills go_sql_candidate)
    (lower <$> skills_required go_sql_job) = Ok (Arm 0, 1%nat)
  ∧ membership_count lower (skills go_sql_candidate)
      (skills_required go_sql_job) = 2%nat
  ∧ calculate_match_score lower go_sql_candidate go_sql_job = Ok 50.
Proof.
  assert (Hchain :
    match_skills (lower <$> skills go_sql_candidate)
      (lower <$> skills_required go_sql_job) = Ok (Arm 0, 1%nat)).
  { rewrite match_skills_eq by done. f_equal.
    apply chain_arm; [lia | | lia].
    apply hit_matches_at. exists (lower (str "go")).
    split; [done | apply list_elem_of_here]. }
  split; [done|]. split.
  - unfold membership_count. cbn [skills skills_required go_sql_candidate
      go_sql_job candidate_with job_with fmap list_fmap].
    rewrite filter_cons_True by apply list_elem_of_here.
    rewrite filter_cons_True
      by apply list_elem_of_further, list_elem_of_here.
    by rewrite filter_nil.
  - rewrite (calculate_match_score_eq lower _ _ None (Arm 0) 1%nat);
      [by vm_compute | done | done | done].
Qed.

(** C2 (the code departs from it): on the premium example, three skills
    of three and twelve years, the chain stops at its first arm with
    [matched_count] 1, the premium test [matched_count >= 3] fails, and
    the score is [int(1 / 3 * 100)], 33.  With the three matches counted
    the premium formula would give 120, capped to 100, as the example
    expects. *)
Theorem C2_premium_example_scores_33 (lower : pystr → pystr) :
  match_skills (lower <$> skills premium_candidate)
    (lower <$> skills_required three_skill_job) = Ok (Arm 0, 1%nat)
  ∧ membership_count lower (skills premium_candidate)
      (skills_required three_skill_job) = 3%nat
  ∧ score (years_experience premium_candidate) 1 3 = Ok 33
  ∧ score (years_experience premium_candidate) 3 3 = Ok 120
  ∧ calculate_match_score lower premium_candidate three_skill_job = Ok 33.
Proof.
  assert (Hchain :
    match_skills (lower <$> skills premium_candidate)
      (lower <$> skills_required three_skill_job) = Ok (Arm 0, 1%nat)).
  { rewrite match_skills_eq by done. f_equal.
    apply chain_arm; [lia | | lia].
    apply hit_matches_at. exists (lower (str "go")).
    split; [done | apply list_elem_of_here]. }
  split; [done|]. split; [|split; [|split]].
  - unfold membership_count. cbn [skills skills_required premium_candidate
      three_skill_job candidate_with job_with fmap list_fmap].
    rewrite filter_cons_True by apply list_elem_of_here.
    rewrite filter_cons_True
      by apply list_elem_of_further, list_elem_of_here.
    rewrite filter_cons_True
      by apply list_elem_of_further, list_elem_of_further, list_elem_of_here.
    by rewrite filter_nil.
  - by vm_compute.
  - by vm_compute.
  - rewrite (calculate_match_score_eq lower _ _ None (Arm 0) 1%nat);
      [by vm_compute | done | done | done].
Qed.

(** ** The arithmetic of the score *)

(** Rounding keeps the sign it is given. *)
Lemma binary_round_aux_not_negative mx ex lx :
  not_negative (binary_round_aux prec emax false mx ex lx).
Proof.
  unfold binary_round_aux.
  destruct (shr_fexp prec emax mx ex lx) as [mrs e'].
  destruct (shr_fexp prec emax _ e' loc_Exact) as [mrs'' e''].
  destruct (shr_m mrs''); simpl; try done.
  by destruct (Z.leb _ _).
Qed.

Lemma int_true_div_not_negative (a b : nat) q :
  int_true_div (Z.of_nat a) (Z.of_nat b) = Ok q → not_negative q.
Proof.
  unfold int_true_div. destruct (Z.of_nat b =? 0); [done|].
  destruct (Z.of_nat a) as [|pa|pa] eqn:Ha; [| |lia];
    destruct (Z.of_nat b) as [|pb|pb] eqn:Hb; try lia;
    cbn [exact_of_int SFdiv xorb]; try (by intros [= <-]); try done.
  destruct (SFdiv_core_binary prec emax (Z.pos pa) 0 (Z.pos pb) 0)
    as [[mz ez] lz].
  pose proof (binary_round_aux_not_negative mz ez lz) as Hsign.
  destruct (binary_round_aux prec emax false mz ez lz);
    try done; by intros [= <-].
Qed.

Lemma SFmul_not_negative x y :
  not_negative x → not_negative y → not_negative (SFmul prec emax x y).
Proof.
  destruct x as [?|?| |[] ? ?], y as [?|?| |[] ? ?]; try done; intros _ _.
  apply binary_round_aux_not_negative.
Qed.

Lemma float_mul_int_not_negative x y :
  not_negative x → float_mul_int x 100 = Ok y → not_negative y.
Proof.
  intros Hx. unfold float_mul_int.
  change (float_of_int 100) with (Ok (S754_finite false 7036874417766400 (-46))).
  cbn [bind]. intros [= <-]. by apply SFmul_not_negative.
Qed.

Lemma int_of_float_not_negative x z :
  not_negative x → int_of_float x = Ok z → 0 ≤ z.
Proof.
  destruct x as [?|?| |[] m e]; try done; simpl.
  - by intros _ [= <-].
  - intros _ [= <-]. by apply Z.shiftl_nonneg.
Qed.

(** The score is never negative. *)
Lemma score_not_negative years matched_count n s :
  score years matched_count n = Ok s → 0 ≤ s.
Proof.
  unfold score.
  destruct (int_true_div (Z.of_nat matched_count) (Z.of_nat n)) as [q|]
    eqn:Hq; [|by destruct (_ && _)].
  apply int_true_div_not_negative in Hq.
  cbn [bind].
  destruct (float_mul_int q 100) as [x|] eqn:Hx; [|by destruct (_ && _)].
  apply float_mul_int_not_negative in Hx; [|done].
  cbn [bind].
  destruct (_ && _); apply int_of_float_not_negative; [|done].
  by apply SFmul_not_negative.
Qed.

(** C6: whenever [calculate_match_score] returns, what it returns is an
    integer between 0 and 100: the early returns give 0, and a score is
    not negative and is capped by [min(score, 100)]. *)
Theorem C6_score_between_0_and_100 (lower : pystr → pystr)
    (candidate : Candidate) (job : Job) (z : Z) :
  calculate_match_score lower candidate job = Ok z → 0 ≤ z ≤ 100.
Proof.
  unfold calculate_match_score.
  destruct (_ || _); [intros [= <-]; lia|].
  destruct (read_metadata candidate); [|done]. cbn [bind].
  destruct (match_skills _ _) as [[arm matched_count]|]; [|done].
  cbn [bind].
  destruct (matched_count =? 0)%nat; [intros [= <-]; lia|].
  destruct (score _ _ _) as [s|] eqn:Hs; [|done].
  apply score_not_negative in Hs. cbn [bind]. intros [= <-]. lia.
Qed.

Lemma C6_score_between_0_and_100_witness :
  calculate_match_score lower_ascii
    (candidate_with ["ada"; "apl"; "awk"; "bash"; "cobol"; "go"; "sql"; "rust"]
       12 None)
    three_skill_job = Ok 100
  ∧ 0 ≤ 100 ≤ 100.
Proof.
  assert (H : calculate_match_score lower_ascii
    (candidate_with ["ada"; "apl"; "awk"; "bash"; "cobol"; "go"; "sql"; "rust"]
       12 None)
    three_skill_job = Ok 100) by (by vm_compute).
  split; [exact H|].
  exact (C6_score_between_0_and_100 lower_ascii _ _ 100 H).
Defined.

(** The score that [calculate_match_score] caps, spelled out: the double
    [(matched_count / len(job_skills)) * 100], times the double [1.2] for a
    premium candidate, truncated once at the end. *)
Lemma score_eq years matched_count n :
  score years matched_count n
  = (q <- int_true_div (Z.of_nat matched_count) (Z.of_nat n);
     x <- float_mul_int q 100;
     int_of_float
       (if (10 <? years) && (3 <=? matched_count)%nat
        then float_mul x float_1_2 else x)).
Proof.
  unfold score. destruct (_ && _); [done|].
  destruct (int_true_div _ _); [|done]. cbn [bind].
  by destruct (float_mul_int _ _).
Qed.

(** In double arithmetic 29 of 100 scores 28, one less than the exact
    quotient: [29 / 100 * 100] is 28.999999999999996. *)
Lemma score_29_of_100 :
  calculate_match_score lower_ascii wide_candidate wide_job = Ok 28
  ∧ score 2 29 100 = Ok 28
  ∧ claimed_score 2 29 100 = 29.
Proof. by vm_compute. Qed.



(** [years_experience] enters the score through [years_experience > 10]
    alone. *)
Lemma score_agrees_years years matched_count n :
  score_agrees years matched_count n
  = score_agrees (if 10 <? years then 11 else 0) matched_count n.
Proof.
  unfold score_agrees, amended_score, product_numerator, premium, score.
  destruct (10 <? years); reflexivity.
Qed.

(** The enumeration: every pair of sizes up to the bound, without and with
    [years_experience > 10]. *)
Lemma score_agrees_enumerated :
  score_agrees_upto 0 size_bound = true
  ∧ score_agrees_upto 11 size_bound = true.
Proof. split; by vm_compute. Qed.

Lemma score_agrees_in_range years matched_count n :
  (1 ≤ matched_count ≤ size_bound)%nat → (1 ≤ n ≤ size_bound)%nat →
  score_agrees years matched_count n = true.
Proof.
  intros Hm Hn. rewrite score_agrees_years.
  destruct score_agrees_enumerated as [H0 H11].
  assert (Hall : score_agrees_upto (if 10 <? years then 11 else 0) size_bound
                 = true) by (destruct (10 <? years); assumption).
  unfold score_agrees_upto in Hall.
  rewrite forallb_forall in Hall.
  specialize (Hall matched_count). rewrite in_seq in Hall.
  specialize (Hall ltac:(lia)). rewrite forallb_forall in Hall.
  apply Hall. rewrite in_seq. lia.
Qed.


(** Up to the bound, on a whole product the double arithmetic gives the
    quotient or falls one short of it (29 of 100 gives 28, 29 of 50 gives
    57). *)
Lemma score_whole_product years matched_count n :
  (1 ≤ matched_count ≤ size_bound)%nat → (1 ≤ n ≤ size_bound)%nat →
  whole_product years matched_count n →
  score years matched_count n = Ok (amended_score years matched_count n)
  ∨ score years matched_count n
    = Ok (amended_score years matched_count n - 1).
Proof.
  intros Hm Hn Hwhole.
  pose proof (score_agrees_in_range years matched_count n Hm Hn) as H.
  unfold score_agrees in H.
  destruct (score years matched_count n) as [s|]; [|done].
  apply Z.eqb_eq in Hwhole. rewrite Hwhole in H.
  apply orb_true_iff in H as [H|H]; apply Z.eqb_eq in H; rewrite H; tauto.
Qed.



(** ** The metadata lookups *)

Lemma calculate_match_score_raises lower candidate job e :
  skills candidate ≠ [] → skills_required job ≠ [] →
  read_metadata candidate = Raise e →
  calculate_match_score lower candidate job = Raise e.
Proof.
  intros Hc Hj Hmeta. unfold calculate_match_score.
  destruct (skills candidate); [done|].
  destruct (skills_required job); [done|].
  cbn [truthy_list negb orb]. by rewrite Hmeta.
Qed.

(** C7: for a candidate with skills and a job with required skills, a
    non-empty [metadata] mapping without the key [skill_weights], or whose
    [skill_weights] mapping has no key [base], makes
    [calculate_match_score] raise a [KeyError], a lookup error that nothing
    in the function catches.  When both lookups succeed the value found
    changes nothing: the score is the one of the same candidate without
    metadata. *)
Theorem C7_metadata_lookup (lower : pystr → pystr) (candidate : Candidate)
    (job : Job) :
  skills candidate ≠ [] → skills_required job ≠ [] →
  (∀ d : gmap pystr pyval,
     metadata candidate = Some (PDict d) → d ≠ ∅ →
     d !! str "skill_weights" = None
     ∨ (∃ w : gmap pystr pyval,
          d !! str "skill_weights" = Some (PDict w)
          ∧ w !! str "base" = None) →
     ∃ key,
       calculate_match_score lower candidate job = Raise (KeyError key)
       ∧ is_lookup_error (KeyError key) = true)
  ∧ (∀ base_multiplier,
       read_metadata candidate = Ok (Some base_multiplier) →
       calculate_match_score lower candidate job
       = calculate_match_score lower (without_metadata candidate) job).
Proof.
  intros Hc Hj. split.
  - intros d Hmeta Hd Hmissing.
    assert (Htruthy : truthy (PDict d) = true).
    { simpl. by rewrite bool_decide_eq_false_2. }
    destruct Hmissing as [Hsw|(w & Hsw & Hbase)].
    + exists (str "skill_weights"). split; [|done].
      apply calculate_match_score_raises; [done..|].
      unfold read_metadata. rewrite Hmeta.
      change (default PNone (Some (PDict d))) with (PDict d).
      rewrite Htruthy. cbn [getitem]. by rewrite Hsw.
    + exists (str "base"). split; [|done].
      apply calculate_match_score_raises; [done..|].
      unfold read_metadata. rewrite Hmeta.
      change (default PNone (Some (PDict d))) with (PDict d).
      rewrite Htruthy. cbn [getitem]. rewrite Hsw. cbn [bind getitem].
      by rewrite Hbase.
  - intros base_multiplier Hmeta. unfold calculate_match_score.
    rewrite Hmeta. reflexivity.
Qed.

Lemma C7_metadata_lookup_witness :
  (∃ key,
     calculate_match_score lower_ascii
       (candidate_with ["go"] 3 (Some no_weights)) four_skill_job
     = Raise (KeyError key)
     ∧ is_lookup_error (KeyError key) = true)
  ∧ (∃ key,
       calculate_match_score lower_ascii
         (candidate_with ["go"] 3 (Some no_base)) four_skill_job
       = Raise (KeyError key)
       ∧ is_lookup_error (KeyError key) = true)
  ∧ calculate_match_score lower_ascii
      (candidate_with ["go"] 3 (Some with_base)) four_skill_job
    = calculate_match_score lower_ascii
        (without_metadata (candidate_with ["go"] 3 (Some with_base)))
        four_skill_job.
Proof.
  split; [|split].
  - apply (proj1 (C7_metadata_lookup lower_ascii
                    (candidate_with ["go"] 3 (Some no_weights)) four_skill_job
                    ltac:(discriminate) ltac:(discriminate))
             {[ str "source" := PStr (str "import") ]}).
    + reflexivity.
    + apply insert_non_empty.
    + left. by vm_compute.
  - apply (proj1 (C7_metadata_lookup lower_ascii
                    (candidate_with ["go"] 3 (Some no_base)) four_skill_job
                    ltac:(discriminate) ltac:(discriminate))
             {[ str "skill_weights" := PDict {[ str "bonus" := PInt 2 ]} ]}).
    + reflexivity.
    + apply insert_non_empty.
    + right. exists {[ str "bonus" := PInt 2 ]}. split; by vm_compute.
  - apply (proj2 (C7_metadata_lookup lower_ascii
                    (candidate_with ["go"] 3 (Some with_base)) four_skill_job
                    ltac:(discriminate) ltac:(discriminate))
             (PInt 2)).
    by vm_compute.
Defined.

(* ===================================================================== *)
(** * Further properties of the code                                      *)
(* ===================================================================== *)

Import Variations.

(** ** Trimming, continued *)

Lemma lstrip_trimmed_id s :
  (∀ c, head s = Some c → isspace c = false) → lstrip s = s.
Proof.
  destruct s as [|a s]; [done|]. simpl. intros H.
  by rewrite (H a eq_refl).
Qed.

Lemma strip_trimmed_id s : trimmed s → strip s = s.
Proof.
  intros [Hhead Hlast]. unfold strip, rstrip.
  rewrite (lstrip_trimmed_id s Hhead).
  rewrite lstrip_trimmed_id; [apply reverse_involutive|].
  intros c Hc. apply Hlast. by rewrite <- head_reverse.
Qed.

(** Trimming twice is trimming once. *)
Lemma strip_idemp s : strip (strip s) = strip s.
Proof. apply strip_trimmed_id, strip_trimmed. Qed.

Lemma lstrip_keeps s c : c ∈ s → isspace c = false → c ∈ lstrip s.
Proof.
  intros Hin Hc. induction s as [|a s IH]; [done|]. simpl.
  destruct (isspace a) eqn:Ha; [|done].
  apply elem_of_cons in Hin as [->|Hin]; [congruence | by apply IH].
Qed.

(** Trimming removes whitespace only. *)
Lemma strip_keeps s c : c ∈ s → isspace c = false → c ∈ strip s.
Proof.
  intros Hin Hc. unfold strip, rstrip.
  apply elem_of_reverse, lstrip_keeps; [|done].
  apply elem_of_reverse. by apply lstrip_keeps.
Qed.

(** ** The validators, continued *)

Ltac in_fields :=
  repeat first [apply list_elem_of_here | apply list_elem_of_further].

Lemma candidate_contracts (payload : gmap pystr pyval) :
  (∀ f, ¬ candidate_offence payload f) →
  nonempty_str (dict_get payload (str "name"))
  ∧ email_like (dict_get payload (str "email"))
  ∧ list_of_str (dict_get payload (str "skills"))
  ∧ nonneg_int (dict_get payload (str "years_experience")).
Proof.
  intros Hok. repeat split.
  - apply (contract_holds _ _ (nonempty_strb_spec _)). intros ?.
    apply (Hok (str "name")). by left.
  - apply (contract_holds _ _ (email_likeb_spec _)). intros ?.
    apply (Hok (str "email")). right; by left.
  - apply (contract_holds _ _ (list_of_strb_spec _)). intros ?.
    apply (Hok (str "skills")). right; right; by left.
  - apply (contract_holds _ _ (nonneg_intb_spec _)). intros ?.
    apply (Hok (str "years_experience")). right; right; by right.
Qed.

Lemma job_contracts (payload : gmap pystr pyval) :
  (∀ f, ¬ job_offence payload f) →
  nonempty_str (dict_get payload (str "title"))
  ∧ nonempty_str (dict_get payload (str "location"))
  ∧ list_of_nonempty_str (dict_get payload (str "skills_required")).
Proof.
  intros Hok. repeat split.
  - apply (contract_holds _ _ (nonempty_strb_spec _)). intros ?.
    apply (Hok (str "title")). by left.
  - apply (contract_holds _ _ (nonempty_strb_spec _)). intros ?.
    apply (Hok (str "location")). right; by left.
  - apply (contract_holds _ _ (list_of_nonempty_strb_spec _)). intros ?.
    apply (Hok (str "skills_required")). right; by right.
Qed.

(** X1: [validate_candidate_payload] reads the keys [name], [email],
    [skills] and [years_experience] and nothing else: two payloads that
    agree on these four get the same answer, tuple or error mapping. *)
Theorem validate_candidate_payload_reads_four_keys
    (payload payload' : gmap pystr pyval) :
  (∀ key, key ∈ candidate_fields → payload !! key = payload' !! key) →
  validate_candidate_payload payload = validate_candidate_payload payload'.
Proof.
  intros Hsame. unfold validate_candidate_payload, dict_get.
  rewrite (Hsame (str "name")) by (unfold candidate_fields; in_fields).
  rewrite (Hsame (str "email")) by (unfold candidate_fields; in_fields).
  rewrite (Hsame (str "skills")) by (unfold candidate_fields; in_fields).
  rewrite (Hsame (str "years_experience"))
    by (unfold candidate_fields; in_fields).
  reflexivity.
Qed.

Lemma validate_candidate_payload_reads_four_keys_witness :
  validate_candidate_payload
    (<[str "role" := PStr (str "admin")]> ann_payload)
  = validate_candidate_payload ann_payload.
Proof.
  apply validate_candidate_payload_reads_four_keys.
  intros key Hkey. apply lookup_insert_ne. intros <-.
  unfold candidate_fields in Hkey.
  repeat (apply elem_of_cons in Hkey as [Hkey|Hkey]; [discriminate Hkey|]).
  by apply elem_of_nil in Hkey.
Defined.

(** X2: [validate_job_payload] reads the keys [title], [location] and
    [skills_required] and nothing else. *)
Theorem validate_job_payload_reads_three_keys
    (payload payload' : gmap pystr pyval) :
  (∀ key, key ∈ job_fields → payload !! key = payload' !! key) →
  validate_job_payload payload = validate_job_payload payload'.
Proof.
  intros Hsame. unfold validate_job_payload, dict_get.
  rewrite (Hsame (str "title")) by (unfold job_fields; in_fields).
  rewrite (Hsame (str "location")) by (unfold job_fields; in_fields).
  rewrite (Hsame (str "skills_required")) by (unfold job_fields; in_fields).
  reflexivity.
Qed.

Lemma validate_job_payload_reads_three_keys_witness :
  validate_job_payload (<[str "salary" := PInt 100]> eng_job_payload)
  = validate_job_payload eng_job_payload.
Proof.
  apply validate_job_payload_reads_three_keys.
  intros key Hkey. apply lookup_insert_ne. intros <-.
  unfold job_fields in Hkey.
  repeat (apply elem_of_cons in Hkey as [Hkey|Hkey]; [discriminate Hkey|]).
  by apply elem_of_nil in Hkey.
Defined.

Lemma none_breaks_contracts :
  ¬ nonempty_str PNone ∧ ¬ email_like PNone ∧ ¬ list_of_str PNone
  ∧ ¬ nonneg_int PNone ∧ ¬ list_of_nonempty_str PNone.
Proof.
  repeat split; try by intros (? & ? & ?).
  by intros [(? & ? & ?)|(? & ?)].
Qed.

(** X3: a field that is absent from the payload, or present with the
    value [None], is reported: the validator raises a [ValidationError]
    whose mapping has that field among its keys, whatever the other fields
    hold.  This holds for each of the four candidate fields and each of
    the three job fields. *)
Theorem missing_field_is_reported (payload : gmap pystr pyval)
    (field : pystr) :
  dict_get payload field = PNone →
  (field ∈ candidate_fields →
   ∃ errors,
     validate_candidate_payload payload = Raise (ValidationError errors)
     ∧ field ∈ dom errors)
  ∧ (field ∈ job_fields →
     ∃ errors,
       validate_job_payload payload = Raise (ValidationError errors)
       ∧ field ∈ dom errors).
Proof.
  intros Hnone.
  destruct none_breaks_contracts as (Hn1 & Hn2 & Hn3 & Hn4 & Hn5).
  split; intros Hfield.
  - assert (Hoff : candidate_offence payload field).
    { unfold candidate_fields in Hfield. unfold candidate_offence.
      repeat (apply elem_of_cons in Hfield as [->|Hfield];
              [rewrite Hnone; tauto|]).
      by apply elem_of_nil in Hfield. }
    destruct (validate_candidate_payload_spec payload)
      as [(? & ? & ? & _ & _ & _ & Hok & _)|(errors & Hv & _ & Hdom)].
    + by destruct (Hok _ Hoff).
    + exists errors. split; [done | by apply Hdom].
  - assert (Hoff : job_offence payload field).
    { unfold job_fields in Hfield. unfold job_offence.
      repeat (apply elem_of_cons in Hfield as [->|Hfield];
              [rewrite Hnone; tauto|]).
      by apply elem_of_nil in Hfield. }
    destruct (validate_job_payload_spec payload)
      as [(? & ? & ? & _ & _ & _ & Hok & _)|(errors & Hv & _ & Hdom)].
    + by destruct (Hok _ Hoff).
    + exists errors. split; [done | by apply Hdom].
Qed.

Lemma missing_field_is_reported_witness :
  (∃ errors,
     validate_candidate_payload (delete (str "email") ann_payload)
     = Raise (ValidationError errors)
     ∧ str "email" ∈ dom errors)
  ∧ (∃ errors,
       validate_job_payload (<[str "title" := PNone]> eng_job_payload)
       = Raise (ValidationError errors)
       ∧ str "title" ∈ dom errors).
Proof.
  split.
  - apply (proj1 (missing_field_is_reported
                    (delete (str "email") ann_payload) (str "email")
                    ltac:(by vm_compute))).
    unfold candidate_fields. in_fields.
  - apply (proj2 (missing_field_is_reported
                    (<[str "title" := PNone]> eng_job_payload) (str "title")
                    ltac:(by vm_compute))).
    unfold job_fields. in_fields.
Defined.

Lemma fmap_strip_idemp (raw : list pystr) :
  strip <$> (strip <$> raw) = strip <$> raw.
Proof.
  induction raw as [|s raw IH]; [done|].
  rewrite !fmap_cons, IH. by rewrite strip_idemp.
Qed.

(** What a successful candidate validation tells about the payload. *)
Lemma validate_candidate_payload_inv payload t :
  validate_candidate_payload payload = Ok t →
  ∃ n e raw,
    dict_get payload (str "name") = PStr n ∧ strip n ≠ []
    ∧ dict_get payload (str "email") = PStr e ∧ 64%N ∈ e
    ∧ dict_get payload (str "skills") = PList (PStr <$> raw)
    ∧ nonneg_int (dict_get payload (str "years_experience"))
    ∧ t = (strip n, strip e, strip <$> raw,
           dict_get payload (str "years_experience")).
Proof.
  intros Hv.
  destruct (validate_candidate_payload_spec payload)
    as [(n & e & raw & Hn & He & Hs & Hok & Hv')|(? & Hv' & _)];
    [|congruence].
  destruct (candidate_contracts payload Hok)
    as ((n' & Hn' & Hne) & (e' & He' & Hat) & _ & Hy).
  exists n, e, raw. rewrite Hn in Hn'. rewrite He in He'.
  injection Hn' as <-. injection He' as <-.
  repeat split; try done. congruence.
Qed.

(** A payload that meets the four contracts validates. *)
Lemma validate_candidate_payload_ok payload n e raw :
  dict_get payload (str "name") = PStr n → strip n ≠ [] →
  dict_get payload (str "email") = PStr e → 64%N ∈ e →
  dict_get payload (str "skills") = PList (PStr <$> raw) →
  nonneg_int (dict_get payload (str "years_experience")) →
  validate_candidate_payload payload
  = Ok (strip n, strip e, strip <$> raw,
        dict_get payload (str "years_experience")).
Proof.
  intros Hn Hne He Hat Hs Hy.
  destruct (validate_candidate_payload_spec payload)
    as [(n' & e' & raw' & Hn' & He' & Hs' & _ & Hv)
       |(errors & _ & [f Hf] & _)].
  - rewrite Hn in Hn'. rewrite He in He'. rewrite Hs in Hs'.
    injection Hn' as <-. injection He' as <-. injection Hs' as Hs'.
    assert (Inj (=) (=) PStr) by (by intros ?? [=]).
    by apply (inj (fmap PStr)) in Hs' as <-.
  - exfalso. destruct Hf as [[_ Hf]|[[_ Hf]|[[_ Hf]|[_ Hf]]]]; apply Hf.
    + rewrite Hn. by exists n.
    + rewrite He. by exists e.
    + rewrite Hs. eexists. split; [done|].
      apply Forall_fmap, Forall_true. intros s. by exists s.
    + done.
Qed.

Lemma validate_job_payload_inv payload t :
  validate_job_payload payload = Ok t →
  ∃ title loc raw,
    dict_get payload (str "title") = PStr title ∧ strip title ≠ []
    ∧ dict_get payload (str "location") = PStr loc ∧ strip loc ≠ []
    ∧ dict_get payload (str "skills_required") = PList (PStr <$> raw)
    ∧ Forall (fun s => strip s ≠ []) raw
    ∧ t = (strip title, strip loc, strip <$> raw).
Proof.
  intros Hv.
  destruct (validate_job_payload_spec payload)
    as [(title & loc & raw & Ht & Hl & Hs & Hok & Hv')|(? & Hv' & _)];
    [|congruence].
  destruct (job_contracts payload Hok)
    as ((t' & Ht' & Hne) & (l' & Hl' & Hnl) & (raw' & Hs' & Hall)).
  exists title, loc, raw. rewrite Ht in Ht'. rewrite Hl in Hl'.
  rewrite Hs in Hs'.
  injection Ht' as <-. injection Hl' as <-. injection Hs' as <-.
  repeat split; try done; [|congruence].
  rewrite Forall_fmap in Hall. eapply Forall_impl; [exact Hall|].
  simpl. by intros s (s' & [= <-] & ?).
Qed.

Lemma validate_job_payload_ok payload title loc raw :
  dict_get payload (str "title") = PStr title → strip title ≠ [] →
  dict_get payload (str "location") = PStr loc → strip loc ≠ [] →
  dict_get payload (str "skills_required") = PList (PStr <$> raw) →
  Forall (fun s => strip s ≠ []) raw →
  validate_job_payload payload = Ok (strip title, strip loc, strip <$> raw).
Proof.
  intros Ht Hnt Hl Hnl Hs Hraw.
  destruct (validate_job_payload_spec payload)
    as [(t' & loc' & raw' & Ht' & Hl' & Hs' & _ & Hv)
       |(errors & _ & [f Hf] & _)].
  - rewrite Ht in Ht'. rewrite Hl in Hl'. rewrite Hs in Hs'.
    injection Ht' as <-. injection Hl' as <-. injection Hs' as Hs'.
    assert (Inj (=) (=) PStr) by (by intros ?? [=]).
    by apply (inj (fmap PStr)) in Hs' as <-.
  - exfalso. destruct Hf as [[_ Hf]|[[_ Hf]|[_ Hf]]]; apply Hf.
    + rewrite Ht. by exists title.
    + rewrite Hl. by exists loc.
    + rewrite Hs. eexists. split; [done|].
      apply Forall_fmap. eapply Forall_impl; [exact Hraw|].
      intros s ?. by exists s.
Qed.

(** X4: whatever [validate_candidate_payload] returns is well formed: the
    name is not empty, name and email and every skill are trimmed, the
    email still holds an [@], and [years_experience] is an integer that is
    not negative (or a boolean).  A skill may be the empty string. *)
Theorem validate_candidate_payload_result (payload : gmap pystr pyval)
    (n e : pystr) (ss : list pystr) (y : pyval) :
  validate_candidate_payload payload = Ok (n, e, ss, y) →
  n ≠ [] ∧ trimmed n
  ∧ 64%N ∈ e ∧ trimmed e
  ∧ Forall trimmed ss
  ∧ nonneg_int y.
Proof.
  intros (n0 & e0 & raw & _ & Hne & _ & Hat & _ & Hy & [= -> -> -> ->])
    %validate_candidate_payload_inv.
  repeat split; try done; try apply strip_trimmed.
  - by apply strip_keeps.
  - apply Forall_strip_trimmed.
Qed.

Lemma validate_candidate_payload_result_witness :
  validate_candidate_payload ann_payload
  = Ok (str "Ann", str "a@b.com", [str "Go"; str "sql"], PInt 3)
  ∧ str "Ann" ≠ [] ∧ 64%N ∈ str "a@b.com".
Proof.
  assert (H : validate_candidate_payload ann_payload
              = Ok (str "Ann", str "a@b.com", [str "Go"; str "sql"], PInt 3))
    by (by vm_compute).
  split; [exact H|].
  destruct (validate_candidate_payload_result _ _ _ _ _ H)
    as (Hn & _ & He & _).
  by split.
Defined.

(** X5: whatever [validate_job_payload] returns is well formed: title and
    location are trimmed and not empty, and every required skill is
    trimmed and not empty. *)
Theorem validate_job_payload_result (payload : gmap pystr pyval)
    (t loc : pystr) (ss : list pystr) :
  validate_job_payload payload = Ok (t, loc, ss) →
  t ≠ [] ∧ trimmed t
  ∧ loc ≠ [] ∧ trimmed loc
  ∧ Forall (fun s => s ≠ [] ∧ trimmed s) ss.
Proof.
  intros (t0 & l0 & raw & _ & Hnt & _ & Hnl & _ & Hraw & [= -> -> ->])
    %validate_job_payload_inv.
  repeat split; try done; try apply strip_trimmed.
  apply Forall_fmap. eapply Forall_impl; [exact Hraw|].
  intros s Hs. split; [done | apply strip_trimmed].
Qed.

Lemma validate_job_payload_result_witness :
  validate_job_payload eng_job_payload
  = Ok (str "Eng", str "NYC", [str "Go"; str "SQL"])
  ∧ str "Eng" ≠ [] ∧ str "NYC" ≠ [].
Proof.
  assert (H : validate_job_payload eng_job_payload
              = Ok (str "Eng", str "NYC", [str "Go"; str "SQL"]))
    by (by vm_compute).
  split; [exact H|].
  destruct (validate_job_payload_result _ _ _ _ H) as (Ht & _ & Hl & _).
  by split.
Defined.

(** X6: validating is idempotent on candidates: the tuple that
    [validate_candidate_payload] returns, sent again as a payload, is
    accepted and comes back unchanged. *)
Theorem validate_candidate_payload_fixed_point (payload : gmap pystr pyval)
    (t : pystr * pystr * list pystr * pyval) :
  validate_candidate_payload payload = Ok t →
  validate_candidate_payload (candidate_payload_of t) = Ok t.
Proof.
  intros (n & e & raw & _ & Hne & _ & Hat & _ & Hy & ->)
    %validate_candidate_payload_inv.
  set (y := dict_get payload (str "years_experience")) in *.
  rewrite (validate_candidate_payload_ok _ (strip n) (strip e) (strip <$> raw)).
  - change (dict_get (candidate_payload_of _) (str "years_experience"))
      with y.
    by rewrite !strip_idemp, fmap_strip_idemp.
  - reflexivity.
  - by rewrite strip_idemp.
  - reflexivity.
  - by apply strip_keeps.
  - reflexivity.
  - exact Hy.
Qed.

Lemma validate_candidate_payload_fixed_point_witness :
  validate_candidate_payload
    (candidate_payload_of
       (str "Ann", str "a@b.com", [str "Go"; str "sql"], PInt 3))
  = Ok (str "Ann", str "a@b.com", [str "Go"; str "sql"], PInt 3).
Proof.
  apply (validate_candidate_payload_fixed_point ann_payload).
  by vm_compute.
Defined.

(** X7: validating is idempotent on jobs: the tuple that
    [validate_job_payload] returns, sent again as a payload, is accepted
    and comes back unchanged. *)
Theorem validate_job_payload_fixed_point (payload : gmap pystr pyval)
    (t : pystr * pystr * list pystr) :
  validate_job_payload payload = Ok t →
  validate_job_payload (job_payload_of t) = Ok t.
Proof.
  intros (title & loc & raw & _ & Hnt & _ & Hnl & _ & Hraw & ->)
    %validate_job_payload_inv.
  rewrite (validate_job_payload_ok _ (strip title) (strip loc) (strip <$> raw)).
  - by rewrite !strip_idemp, fmap_strip_idemp.
  - reflexivity.
  - by rewrite strip_idemp.
  - reflexivity.
  - by rewrite strip_idemp.
  - reflexivity.
  - apply Forall_fmap. eapply Forall_impl; [exact Hraw|].
    intros s Hs. simpl. by rewrite strip_idemp.
Qed.

Lemma validate_job_payload_fixed_point_witness :
  validate_job_payload
    (job_payload_of (str "Eng", str "NYC", [str "Go"; str "SQL"]))
  = Ok (str "Eng", str "NYC", [str "Go"; str "SQL"]).
Proof.
  apply (validate_job_payload_fixed_point eng_job_payload).
  by vm_compute.
Defined.

(** X8: [isinstance(years_experience, int)] lets the booleans through:
    with the other three fields in order, [True] or [False] as
    [years_experience] is accepted and handed back as it is.  A float is
    refused, a whole one like [3.0] included, with [years_experience] in
    the error mapping. *)
Theorem years_experience_bool_accepted_float_refused
    (payload : gmap pystr pyval) :
  (∀ n e raw b,
     dict_get payload (str "name") = PStr n → strip n ≠ [] →
     dict_get payload (str "email") = PStr e → 64%N ∈ e →
     dict_get payload (str "skills") = PList (PStr <$> raw) →
     dict_get payload (str "years_experience") = PBool b →
     validate_candidate_payload payload
     = Ok (strip n, strip e, strip <$> raw, PBool b))
  ∧ (∀ x,
       dict_get payload (str "years_experience") = PFloat x →
       ∃ errors,
         validate_candidate_payload payload = Raise (ValidationError errors)
         ∧ str "years_experience" ∈ dom errors).
Proof.
  split.
  - intros n e raw b Hn Hne He Hat Hs Hy.
    rewrite (validate_candidate_payload_ok payload n e raw); try done.
    + by rewrite Hy.
    + rewrite Hy. right. by exists b.
  - intros x Hy.
    assert (Hoff : candidate_offence payload (str "years_experience")).
    { right; right; right. split; [done|]. rewrite Hy.
      by intros [(? & ? & ?)|(? & ?)]. }
    destruct (validate_candidate_payload_spec payload)
      as [(? & ? & ? & _ & _ & _ & Hok & _)|(errors & Hv & _ & Hdom)].
    + by destruct (Hok _ Hoff).
    + exists errors. split; [done | by apply Hdom].
Qed.

Lemma years_experience_bool_accepted_float_refused_witness :
  validate_candidate_payload
    (<[str "years_experience" := PBool true]> ann_payload)
  = Ok (str "Ann", str "a@b.com", [str "Go"; str "sql"], PBool true)
  ∧ (∃ errors,
       validate_candidate_payload
         (<[str "years_experience" := PFloat (S754_finite false 3 0)]>
            ann_payload)
       = Raise (ValidationError errors)
       ∧ str "years_experience" ∈ dom errors).
Proof.
  split.
  - apply (proj1 (years_experience_bool_accepted_float_refused
                    (<[str "years_experience" := PBool true]> ann_payload))
             (str " Ann ") (str "a@b.com") [str " Go "; str " sql "] true).
    + reflexivity.
    + by vm_compute.
    + reflexivity.
    + in_fields.
    + reflexivity.
    + reflexivity.
  - apply (proj2 (years_experience_bool_accepted_float_refused
                    (<[str "years_experience" := PFloat (S754_finite false 3 0)]>
                       ann_payload))
             (S754_finite false 3 0)).
    reflexivity.
Defined.

Lemma record_error_lookup (b : bool) (key message : string)
    (errors : gmap pystr pystr) (f m : pystr) :
  record_error b key message errors !! f = Some m →
  (f = str key ∧ m = str message) ∨ errors !! f = Some m.
Proof.
  unfold record_error. destruct b; [|by right].
  rewrite lookup_insert. case_decide as Hf.
  - intros [= <-]. left. by split.
  - by right.
Qed.

Lemma validate_candidate_payload_raises payload errors :
  validate_candidate_payload payload = Raise (ValidationError errors) →
  errors = candidate_errors payload.
Proof.
  intros Hv.
  destruct (errors_empty_or_not (candidate_errors payload))
    as [[Hempty Hnone]|[Hne _]].
  - destruct (validate_candidate_payload_spec payload)
      as [(? & ? & ? & _ & _ & _ & _ & Hv')|(? & _ & [f Hf] & _)];
      [congruence|].
    apply candidate_errors_dom in Hf. by destruct (Hnone f).
  - rewrite validate_candidate_payload_eq in Hv.
    rewrite bool_decide_eq_false_2 in Hv by done. by injection Hv.
Qed.

Lemma validate_job_payload_raises payload errors :
  validate_job_payload payload = Raise (ValidationError errors) →
  errors = job_errors payload.
Proof.
  intros Hv.
  destruct (errors_empty_or_not (job_errors payload))
    as [[Hempty Hnone]|[Hne _]].
  - destruct (validate_job_payload_spec payload)
      as [(? & ? & ? & _ & _ & _ & _ & Hv')|(? & _ & [f Hf] & _)];
      [congruence|].
    apply job_errors_dom in Hf. by destruct (Hnone f).
  - rewrite validate_job_payload_eq in Hv.
    rewrite bool_decide_eq_false_2 in Hv by done. by injection Hv.
Qed.

(** X9: the error mapping a validator raises gives each field it names the
    one message written for it in the source: the mapping is a part of the
    fixed table of messages, so the set of offending fields determines it. *)
Theorem validation_messages_are_fixed (payload : gmap pystr pyval)
    (errors : gmap pystr pystr) :
  (validate_candidate_payload payload = Raise (ValidationError errors) →
   errors ⊆ candidate_messages)
  ∧ (validate_job_payload payload = Raise (ValidationError errors) →
     errors ⊆ job_messages).
Proof.
  split; intros Hv; apply map_subseteq_spec; intros f m Hf.
  - apply validate_candidate_payload_raises in Hv as ->.
    unfold candidate_errors in Hf.
    repeat (apply record_error_lookup in Hf as [[-> ->]|Hf];
            [reflexivity|]).
    by rewrite lookup_empty in Hf.
  - apply validate_job_payload_raises in Hv as ->.
    unfold job_errors in Hf.
    repeat (apply record_error_lookup in Hf as [[-> ->]|Hf];
            [reflexivity|]).
    by rewrite lookup_empty in Hf.
Qed.

Lemma validation_messages_are_fixed_witness :
  ∃ errors,
    validate_job_payload blank_skill_job_payload
    = Raise (ValidationError errors)
    ∧ errors ⊆ job_messages.
Proof.
  exists (job_errors blank_skill_job_payload).
  assert (H : validate_job_payload blank_skill_job_payload
              = Raise (ValidationError (job_errors blank_skill_job_payload))).
  { rewrite validate_job_payload_eq. reflexivity. }
  split; [exact H|].
  exact (proj2 (validation_messages_are_fixed _ _) H).
Defined.

(** ** The scorer, continued *)

Lemma calculate_match_score_no_skills lower candidate job :
  skills candidate = [] ∨ skills_required job = [] →
  calculate_match_score lower candidate job = Ok 0.
Proof.
  intros [H|H]; unfold calculate_match_score; rewrite H; [done|].
  by destruct (skills candidate).
Qed.

(** X10: when no skill of the candidate is, in lower case, among the
    required skills in lower case, the score is 0 (the metadata, if any,
    being read without error).  The chain of line 89 onwards may miss
    matches, but it never invents one. *)
Theorem no_common_skill_scores_zero (lower : pystr → pystr)
    (candidate : Candidate) (job : Job) (base_multiplier : option pyval) :
  membership_count lower (skills candidate) (skills_required job) = 0%nat →
  read_metadata candidate = Ok base_multiplier →
  calculate_match_score lower candidate job = Ok 0.
Proof.
  intros Hnone Hmeta.
  destruct (decide (skills candidate = [])) as [Hc|Hc];
    [apply calculate_match_score_no_skills; by left|].
  destruct (decide (skills_required job = [])) as [Hj|Hj];
    [apply calculate_match_score_no_skills; by right|].
  assert (Hchain :
    match_skills (lower <$> skills candidate) (lower <$> skills_required job)
    = Ok (chain (lower <$> skills candidate) (lower <$> skills_required job))).
  { apply match_skills_eq. by destruct (skills candidate). }
  destruct (chain _ _) as [arm m].
  destruct (matched_count_vs_membership_count _ _ _ _ _ Hchain)
    as [Hscan Harm].
  assert (m = 0%nat) as ->.
  { destruct arm as [k|]; [|by rewrite Hscan].
    destruct Harm as [_ Hle]; [done | lia]. }
  by rewrite (calculate_match_score_eq lower _ _ _ _ _ Hj Hmeta Hchain).
Qed.

Lemma no_common_skill_scores_zero_witness :
  calculate_match_score lower_ascii
    (candidate_with ["ada"; "apl"] 30 None) three_skill_job = Ok 0.
Proof.
  apply (no_common_skill_scores_zero lower_ascii _ _ None).
  - by vm_compute.
  - reflexivity.
Defined.

Lemma chain_count_small candidate_skills job_skills :
  (length candidate_skills < 8)%nat →
  (snd (chain candidate_skills job_skills) < 3)%nat.
Proof.
  intros Hlen. unfold chain.
  destruct (hit 0 _ _); [simpl; lia|]. destruct (hit 1 _ _); [simpl; lia|].
  destruct (hit 2 _ _); [simpl; lia|]. destruct (hit 3 _ _); [simpl; lia|].
  destruct (hit 4 _ _); [simpl; lia|]. simpl.
  pose proof (length_filter (fun s : pystr => s ∈ job_skills)
                (drop 5 candidate_skills)) as Hle.
  rewrite length_drop in Hle. lia.
Qed.

Lemma score_years_irrelevant years years' matched_count n :
  (matched_count < 3)%nat →
  score years matched_count n = score years' matched_count n.
Proof.
  intros Hm. unfold score.
  assert ((3 <=? matched_count)%nat = false) as -> by by apply Nat.leb_gt.
  by rewrite !andb_false_r.
Qed.

(** X11: the premium formula of line 109 is out of reach for a candidate
    with fewer than eight skills: [matched_count >= 3] needs three matches
    from the sixth skill on, after five that do not match.  So for such a
    candidate [years_experience] has no effect on the outcome. *)
Theorem years_irrelevant_below_eight_skills (lower : pystr → pystr)
    (candidate : Candidate) (job : Job) (years : Z) :
  (length (skills candidate) < 8)%nat →
  calculate_match_score lower (with_years years candidate) job
  = calculate_match_score lower candidate job.
Proof.
  intros Hlen. unfold calculate_match_score.
  change (skills (with_years years candidate)) with (skills candidate).
  change (read_metadata (with_years years candidate))
    with (read_metadata candidate).
  change (years_experience (with_years years candidate)) with years.
  destruct (_ || _); [done|].
  destruct (read_metadata candidate); [|done]. cbn [bind].
  destruct (match_skills _ _) as [[arm m]|] eqn:Hchain; [|done].
  cbn [bind]. destruct (m =? 0)%nat; [done|].
  rewrite (score_years_irrelevant years (years_experience candidate)); [done|].
  destruct (decide (lower <$> skills candidate = [])) as [Hnil|Hne].
  { by rewrite Hnil, match_skills_nil in Hchain. }
  rewrite match_skills_eq in Hchain by done. injection Hchain as Hchain.
  pose proof (chain_count_small (lower <$> skills candidate)
                (lower <$> skills_required job)) as Hsmall.
  rewrite Hchain, length_fmap in Hsmall. by apply Hsmall.
Qed.

Lemma years_irrelevant_below_eight_skills_witness :
  calculate_match_score lower_ascii (with_years 2 premium_candidate)
    three_skill_job
  = calculate_match_score lower_ascii premium_candidate three_skill_job.
Proof.
  apply years_irrelevant_below_eight_skills. simpl. lia.
Defined.

Lemma getitem_raises v key e :
  getitem v key = Raise e → e = KeyError key ∨ e = TypeError.
Proof.
  destruct v; simpl; try (intros [= <-]; by right).
  destruct (_ !! _); [done|]. intros [= <-]. by left.
Qed.

Lemma read_metadata_raises candidate e :
  read_metadata candidate = Raise e →
  e = KeyError (str "skill_weights") ∨ e = KeyError (str "base")
  ∨ e = TypeError.
Proof.
  unfold read_metadata. destruct (truthy _); [|done].
  destruct (getitem _ (str "skill_weights")) as [w|e'] eqn:Hw; cbn [bind].
  - destruct (getitem w (str "base")) as [b|e'] eqn:Hb; cbn [bind]; [done|].
    intros [= <-]. apply getitem_raises in Hb. tauto.
  - intros [= <-]. apply getitem_raises in Hw. tauto.
Qed.

Lemma int_of_float_raises x e :
  int_of_float x = Raise e → e = OverflowError ∨ e = ValueError.
Proof. destruct x; simpl; try done; intros [= <-]; tauto. Qed.

Lemma int_true_div_raises a b e :
  b ≠ 0 → int_true_div a b = Raise e → e = OverflowError.
Proof.
  intros Hb. unfold int_true_div.
  assert ((b =? 0) = false) as -> by (by apply Z.eqb_neq).
  destruct (SFdiv _ _ _ _); try done. by intros [= <-].
Qed.

Lemma score_raises years matched_count n e :
  n ≠ 0%nat →
  score years matched_count n = Raise e →
  e = OverflowError ∨ e = ValueError.
Proof.
  intros Hn. rewrite score_eq.
  destruct (int_true_div _ _) as [q|e'] eqn:Hq; cbn [bind].
  - unfold float_mul_int.
    change (float_of_int 100)
      with (Ok (S754_finite false 7036874417766400 (-46))).
    cbn [bind]. apply int_of_float_raises.
  - intros [= <-]. left. apply int_true_div_raises in Hq; [done | lia].
Qed.

(** X12: the exceptions [calculate_match_score] can let out are the
    [KeyError] for [skill_weights] or for [base] and the [TypeError] of the
    metadata lookups, and the [OverflowError] or [ValueError] of [int] on
    a double that is not finite.  The subscript [candidate_skills[0]] and
    the division by [len(job_skills)] are covered by the early return of
    line 75: an [IndexError] or a [ZeroDivisionError] never leaves the
    function. *)
Theorem calculate_match_score_exceptions (lower : pystr → pystr)
    (candidate : Candidate) (job : Job) (e : exn) :
  calculate_match_score lower candidate job = Raise e →
  e = KeyError (str "skill_weights") ∨ e = KeyError (str "base")
  ∨ e = TypeError ∨ e = OverflowError ∨ e = ValueError.
Proof.
  unfold calculate_match_score.
  destruct (skills candidate) as [|c0 rest] eqn:Hc; [done|].
  destruct (skills_required job) as [|j0 jrest] eqn:Hj; [done|].
  cbn [truthy_list negb orb].
  destruct (read_metadata candidate) as [b|e'] eqn:Hmeta; cbn [bind].
  - rewrite match_skills_eq by done. cbn [bind].
    destruct (chain _ _) as [arm m].
    destruct (m =? 0)%nat; [done|].
    destruct (score _ _ _) as [s|e'] eqn:Hs; cbn [bind]; [done|].
    intros [= <-]. apply score_raises in Hs; [tauto | done].
  - intros [= <-]. apply read_metadata_raises in Hmeta. tauto.
Qed.

Lemma calculate_match_score_exceptions_witness :
  calculate_match_score lower_ascii
    (candidate_with ["go"] 3 (Some no_base)) four_skill_job
  = Raise (KeyError (str "base"))
  ∧ (KeyError (str "base") = KeyError (str "skill_weights")
     ∨ KeyError (str "base") = KeyError (str "base")
     ∨ KeyError (str "base") = TypeError
     ∨ KeyError (str "base") = OverflowError
     ∨ KeyError (str "base") = ValueError).
Proof.
  assert (H : calculate_match_score lower_ascii
                (candidate_with ["go"] 3 (Some no_base)) four_skill_job
              = Raise (KeyError (str "base"))) by (by vm_compute).
  split; [exact H|].
  exact (calculate_match_score_exceptions _ _ _ _ H).
Defined.

(** X13: a [metadata] attribute that is falsy ([None], an empty mapping,
    0, an empty string or list) is never subscripted: the outcome is that
    of the same candidate without the attribute. *)
Theorem falsy_metadata_is_skipped (lower : pystr → pystr)
    (candidate : Candidate) (job : Job) (v : pyval) :
  metadata candidate = Some v → truthy v = false →
  calculate_match_score lower candidate job
  = calculate_match_score lower (without_metadata candidate) job.
Proof.
  intros Hmeta Hfalsy. unfold calculate_match_score.
  assert (read_metadata candidate = Ok None) as ->.
  { unfold read_metadata. rewrite Hmeta.
    change (default PNone (Some v)) with v. by rewrite Hfalsy. }
  reflexivity.
Qed.

Lemma falsy_metadata_is_skipped_witness :
  calculate_match_score lower_ascii
    (candidate_with ["go"] 2 (Some (PDict ∅))) four_skill_job
  = calculate_match_score lower_ascii
      (without_metadata (candidate_with ["go"] 2 (Some (PDict ∅))))
      four_skill_job.
Proof.
  apply (falsy_metadata_is_skipped lower_ascii _ _ (PDict ∅)); reflexivity.
Defined.

(** X14: for a candidate with skills and a job with required skills, a
    truthy [metadata] that is not a mapping (a number, a string, a list),
    or a [skill_weights] entry that is not a mapping, makes the function
    raise [TypeError]: the subscripts of lines 81-82 assume mappings and
    nothing checks. *)
Theorem non_mapping_metadata_raises_type_error (lower : pystr → pystr)
    (candidate : Candidate) (job : Job) :
  skills candidate ≠ [] → skills_required job ≠ [] →
  (∀ v,
     metadata candidate = Some v → truthy v = true →
     (∀ d, v ≠ PDict d) →
     calculate_match_score lower candidate job = Raise TypeError)
  ∧ (∀ (d : gmap pystr pyval) w,
       metadata candidate = Some (PDict d) →
       d !! str "skill_weights" = Some w →
       (∀ d', w ≠ PDict d') →
       calculate_match_score lower candidate job = Raise TypeError).
Proof.
  intros Hc Hj. split.
  - intros v Hmeta Htruthy Hv.
    apply calculate_match_score_raises; [done..|].
    unfold read_metadata. rewrite Hmeta.
    change (default PNone (Some v)) with v. rewrite Htruthy.
    destruct v; try done. by destruct (Hv d).
  - intros d w Hmeta Hw Hnot.
    apply calculate_match_score_raises; [done..|].
    unfold read_metadata. rewrite Hmeta.
    change (default PNone (Some (PDict d))) with (PDict d).
    assert (truthy (PDict d) = true) as ->.
    { simpl. rewrite bool_decide_eq_false_2; [done|].
      intros ->. by rewrite lookup_empty in Hw. }
    cbn [getitem]. rewrite Hw. cbn [bind].
    destruct w; try done. by destruct (Hnot d0).
Qed.

Lemma non_mapping_metadata_raises_type_error_witness :
  calculate_match_score lower_ascii
    (candidate_with ["go"] 2 (Some (PInt 7))) four_skill_job
  = Raise TypeError
  ∧ calculate_match_score lower_ascii
      (candidate_with ["go"] 2
         (Some (PDict {[ str "skill_weights" := PInt 7 ]})))
      four_skill_job
    = Raise TypeError.
Proof.
  split.
  - apply (proj1 (non_mapping_metadata_raises_type_error lower_ascii
                    (candidate_with ["go"] 2 (Some (PInt 7))) four_skill_job
                    ltac:(discriminate) ltac:(discriminate)) (PInt 7));
      [reflexivity | reflexivity | discriminate].
  - apply (proj2 (non_mapping_metadata_raises_type_error lower_ascii
                    (candidate_with ["go"] 2
                       (Some (PDict {[ str "skill_weights" := PInt 7 ]})))
                    four_skill_job
                    ltac:(discriminate) ltac:(discriminate))
             {[ str "skill_weights" := PInt 7 ]} (PInt 7));
      [reflexivity | by vm_compute | discriminate].
Defined.

Lemma truthy_list_fmap {A B} (f g : A → B) (l l' : list A) :
  f <$> l = g <$> l' → truthy_list l = truthy_list l'.
Proof. by destruct l, l'. Qed.

(** X15: the score compares skills in lower case only: two candidates with
    the same [years_experience] and [metadata] whose skills agree once
    lowered, against two jobs whose required skills agree once lowered,
    get the same outcome.  Names, emails, titles and locations play no
    part. *)
Theorem score_reads_lowered_skills (lower : pystr → pystr)
    (candidate candidate' : Candidate) (job job' : Job) :
  years_experience candidate = years_experience candidate' →
  metadata candidate = metadata candidate' →
  lower <$> skills candidate = lower <$> skills candidate' →
  lower <$> skills_required job = lower <$> skills_required job' →
  calculate_match_score lower candidate job
  = calculate_match_score lower candidate' job'.
Proof.
  intros Hy Hmeta Hs Hj. unfold calculate_match_score, read_metadata.
  rewrite (truthy_list_fmap lower lower _ _ Hs).
  rewrite (truthy_list_fmap lower lower _ _ Hj).
  by rewrite Hy, Hmeta, Hs, Hj.
Qed.

Lemma score_reads_lowered_skills_witness :
  calculate_match_score lower_ascii
    (candidate_with ["PYTHON"] 4 None) (job_with ["python"; "sql"])
  = calculate_match_score lower_ascii
      {| name := str "Bob"; email := str "b@c.org";
         skills := [str "python"]; years_experience := 4;
         metadata := None |}
      {| title := str "Dev"; location := str "Oslo";
         skills_required := [str "Python"; str "SQL"] |}.
Proof.
  apply score_reads_lowered_skills; reflexivity.
Defined.

Lemma chain_members candidate_skills job_skills job_skills' :
  (∀ x : pystr, x ∈ job_skills ↔ x ∈ job_skills') →
  chain candidate_skills job_skills = chain candidate_skills job_skills'.
Proof.
  intros Hsame.
  assert (Hhit : ∀ i, hit i candidate_skills job_skills
                      = hit i candidate_skills job_skills').
  { intros i. unfold hit, list_in. destruct (_ !! i); [|done].
    by apply bool_decide_ext. }
  unfold chain. rewrite !Hhit.
  by rewrite (list_filter_iff _ (fun s => s ∈ job_skills') _ Hsame).
Qed.

(** X16: the order of the required skills does not matter: a job whose
    required skills are a permutation of another's gives every candidate
    the same outcome.  (The order of the candidate's skills does matter,
    through the chain.) *)
Theorem required_skills_order_is_irrelevant (lower : pystr → pystr)
    (candidate : Candidate) (job job' : Job) :
  skills_required job ≡ₚ skills_required job' →
  calculate_match_score lower candidate job
  = calculate_match_score lower candidate job'.
Proof.
  intros Hperm. unfold calculate_match_score.
  assert (truthy_list (skills_required job)
          = truthy_list (skills_required job')) as ->.
  { apply Permutation_length in Hperm.
    by destruct (skills_required job), (skills_required job'). }
  destruct (_ || _); [done|].
  destruct (read_metadata candidate); [|done]. cbn [bind].
  rewrite !length_fmap, (Permutation_length Hperm).
  destruct (decide (lower <$> skills candidate = [])) as [->|Hne]; [done|].
  rewrite !match_skills_eq by done.
  rewrite (chain_members _ _ (lower <$> skills_required job')); [done|].
  intros x. by rewrite Hperm.
Qed.

Lemma required_skills_order_is_irrelevant_witness :
  calculate_match_score lower_ascii junior_candidate
    (job_with ["c"; "rust"; "sql"; "go"])
  = calculate_match_score lower_ascii junior_candidate four_skill_job.
Proof.
  apply required_skills_order_is_irrelevant.
  exact (reverse_Permutation (skills_required four_skill_job)).
Defined.

(** X18: the chain never counts more than there is: [matched_count] is
    at most the number of candidate skills found, in lower case, among the
    required ones, and it is 0 exactly when that number is 0. *)
Theorem matched_count_at_most_membership_count (lower : pystr → pystr)
    (candidate : Candidate) (job : Job) (arm : branch) (matched_count : nat) :
  match_skills (lower <$> skills candidate) (lower <$> skills_required job)
  = Ok (arm, matched_count) →
  (matched_count
   ≤ membership_count lower (skills candidate) (skills_required job))%nat
  ∧ (matched_count = 0%nat
     ↔ membership_count lower (skills candidate) (skills_required job)
       = 0%nat).
Proof.
  intros Hchain.
  destruct (matched_count_vs_membership_count _ _ _ _ _ Hchain)
    as [Hscan Harm].
  destruct arm as [k|].
  - destruct Harm as [-> Hle]; [done|]. split; [done | lia].
  - rewrite Hscan by done. split; [lia | done].
Qed.

Lemma matched_count_at_most_membership_count_witness :
  (1 ≤ membership_count lower_ascii (skills premium_candidate)
         (skills_required three_skill_job))%nat.
Proof.
  apply (matched_count_at_most_membership_count lower_ascii
           premium_candidate three_skill_job (Arm 0) 1%nat).
  by vm_compute.
Defined.
